(** * Feather Code: the GitHub access gateway of [feather_code.py]

    A shallow embedding of the gateway (repository detection, credential
    headers, request dispatch, the fifteen tool handlers and the tool
    router) together with the properties established about it.

    Conventions.
    - A Python [str] is a [string]; one [ascii] stands for one character.
    - A value of type [Any] (tool arguments, parsed response bodies) is a
      [json]; numbers are integers.  The one float the program computes
      (a language percentage) is kept symbolic.
    - A raised exception is a value of [exn]; code that may raise returns
      a [result].
    - Code that talks to the network runs in [M]: it reads an [Env]
      (upstream, key file, signer) and threads a [State] (clock and the
      log of requests sent so far). *)

From Stdlib Require Import String Ascii List ZArith Bool Lia DecimalString.
Import ListNotations.
Local Open Scope list_scope.
Local Open Scope string_scope.
#[local] Set Warnings "-register-all".


(** ** Python strings *)

Module PyStr.

(** [s.startswith(p)] *)
Fixpoint startswith (p s : string) : bool :=
  match p with
  | EmptyString => true
  | String a p' =>
      match s with
      | EmptyString => false
      | String b s' => Ascii.eqb a b && startswith p' s'
      end
  end.

(** [sub in s] *)
Fixpoint contains (sub s : string) : bool :=
  startswith sub s ||
  match s with
  | EmptyString => false
  | String _ s' => contains sub s'
  end.

(** [c in s] for a single character [c] *)
Fixpoint has_char (c : ascii) (s : string) : bool :=
  match s with
  | EmptyString => false
  | String b s' => Ascii.eqb c b || has_char c s'
  end.

(** The scan of [str.replace] for a non-empty [old]: leftmost matches,
    never overlapping; [skip] counts the characters of the current match
    still to be dropped. *)
Fixpoint replace_from (skip : nat) (old new s : string) : string :=
  match s with
  | EmptyString => EmptyString
  | String c s' =>
      match skip with
      | S k => replace_from k old new s'
      | O =>
          if startswith old s
          then new ++ replace_from (String.length old - 1) old new s'
          else String c (replace_from 0 old new s')
      end
  end.

(** With an empty [old], Python puts [new] before every character and
    at the end. *)
Fixpoint interleave (new s : string) : string :=
  match s with
  | EmptyString => new
  | String c s' => new ++ String c (interleave new s')
  end.

(** [s.replace(old, new)] *)
Definition replace (old new s : string) : string :=
  match old with
  | EmptyString => interleave new s
  | String _ _ => replace_from 0 old new s
  end.

(** [s.split(sep)] for a one-character separator. *)
Fixpoint split (sep : ascii) (s : string) : list string :=
  match s with
  | EmptyString => [EmptyString]
  | String c s' =>
      match split sep s' with
      | [] => [String c EmptyString]
      | w :: ws =>
          if Ascii.eqb c sep then EmptyString :: w :: ws
          else String c w :: ws
      end
  end.

(** [sep.join(l)] *)
Fixpoint join (sep : string) (l : list string) : string :=
  match l with
  | [] => EmptyString
  | [x] => x
  | x :: rest => x ++ sep ++ join sep rest
  end.

(** [s[:n]] *)
Fixpoint take (n : nat) (s : string) : string :=
  match n, s with
  | S k, String c s' => String c (take k s')
  | _, _ => EmptyString
  end.

(** [str.isspace] on one character: tab to carriage return, the four
    separators 0x1c-0x1f, space, NEL and the no-break space. *)
Definition isspace (c : ascii) : bool :=
  let n := nat_of_ascii c in
  ((9 <=? n)%nat && (n <=? 13)%nat) || ((28 <=? n)%nat && (n <=? 32)%nat)
  || (n =? 133)%nat || (n =? 160)%nat.

Fixpoint lstrip (s : string) : string :=
  match s with
  | EmptyString => EmptyString
  | String c s' => if isspace c then lstrip s' else s
  end.

Fixpoint rstrip (s : string) : string :=
  match s with
  | EmptyString => EmptyString
  | String c s' =>
      match rstrip s' with
      | EmptyString => if isspace c then EmptyString else String c EmptyString
      | r => String c r
      end
  end.

(** [s.strip()] *)
Definition strip (s : string) : string := rstrip (lstrip s).

(** [str(n)] for an integer *)
Definition str_int (n : Z) : string := NilZero.string_of_int (Z.to_int n).

(** [bool(s)] for an optional string ([None] and [''] are false) *)
Definition truthy_opt (o : option string) : bool :=
  match o with
  | Some (String _ _) => true
  | _ => false
  end.

(** [str(o)] for an optional string inside an f-string *)
Definition str_opt (o : option string) : string :=
  match o with
  | Some s => s
  | None => "None"
  end.

End PyStr.
Import PyStr.

(** ** Repository detection: [GitHubClient._detect_git_repo] *)

(** What [subprocess.run(['git','remote','get-url','origin'], check=True,
    timeout=5)] can do. *)
Inductive git_run :=
| Completed (stdout : string)
| TimeoutExpired
| CalledProcessError
| OtherFailure.

(** The body of the [if 'github.com' in url] block, with the final
    [return None] that every other path falls through to. *)
Definition parse_remote_url (url : string) : option (string * string) :=
  if contains "github.com" url then
    let parts_after prefix :=
      split "/" (replace ".git" "" (replace prefix "" url)) in
    let first_two (parts : list string) :=
      match parts with
      | p0 :: p1 :: _ => Some (p0, p1)
      | _ => None
      end in
    if startswith "https://" url then
      first_two (parts_after "https://github.com/")
    else if startswith "git@" url then
      first_two (parts_after "git@github.com:")
    else if startswith "git://" url then
      first_two (parts_after "git://github.com/")
    else None
  else None.

Definition _detect_git_repo (run : git_run) : option (string * string) :=
  match run with
  | Completed stdout => parse_remote_url (strip stdout)
  | TimeoutExpired | CalledProcessError | OtherFailure => None
  end.

(** ** Python values *)

Module Py.

(** A value of type [Any]: what [json.loads] produces (integers only). *)
Inductive json :=
| JNull
| JBool (b : bool)
| JInt (n : Z)
| JStr (s : string)
| JList (l : list json)
| JDict (d : list (string * json)).

(** A [dict] with string keys keeps insertion order. *)
Definition dict := list (string * json).

Record Response := {
  status_code : Z;
  reason : string;
  resp_url : string;
  body : option json;     (* [None]: the body is not JSON *)
  decode_error : string   (* what [response.json()] then complains of *)
}.

(** Exceptions.  [KeyError] carries the [repr] of the missing key, which
    is what [str(e)] prints.  Messages of interpreter-raised errors are
    those of CPython 3.12. *)
Inductive exn :=
| KeyError (key_repr : string)
| TypeError (msg : string)
| AttributeError (msg : string)
| ValueError (msg : string)
| OverflowError (msg : string)
| OSError (msg : string)
| JSONDecodeError (msg : string)
| HTTPError (msg : string) (response : Response)
| RequestException (msg : string)
| Timeout
| ConnectionError
| UnboundLocalError (msg : string)
| Exception_ (msg : string).

Inductive result (A : Type) :=
| Ok (a : A)
| Raise (e : exn).
Arguments Ok {A} a.
Arguments Raise {A} e.

Definition rbind {A B} (r : result A) (k : A -> result B) : result B :=
  match r with
  | Ok a => k a
  | Raise e => Raise e
  end.

Declare Scope py_scope.
Delimit Scope py_scope with py.
Notation "x <- r ;; k" := (rbind r (fun x => k))
  (at level 61, r at next level, right associativity) : py_scope.
Notation "r ;; k" := (rbind r (fun _ => k))
  (at level 61, right associativity) : py_scope.
Local Open Scope py_scope.

(** [[f(x) for x in xs]], left to right, the first exception wins. *)
Fixpoint map_result {A B} (f : A -> result B) (xs : list A) : result (list B) :=
  match xs with
  | [] => Ok []
  | x :: rest =>
      y <- f x ;;
      ys <- map_result f rest ;;
      Ok (y :: ys)
  end.

Definition str_exn (e : exn) : string :=
  match e with
  | KeyError k => k
  | TypeError m | AttributeError m | ValueError m | OverflowError m
  | OSError m | RequestException m | UnboundLocalError m | Exception_ m => m
  | HTTPError m _ => m
  | JSONDecodeError m => m
  | Timeout => "request timed out"
  | ConnectionError => "connection failed"
  end.

(** *** [repr] and [str] *)

Definition hex_digit (n : nat) : ascii :=
  nth n ["0"; "1"; "2"; "3"; "4"; "5"; "6"; "7"; "8"; "9";
         "a"; "b"; "c"; "d"; "e"; "f"]%char "0"%char.

Definition dquote : ascii := ascii_of_nat 34.
Definition squote : ascii := "'"%char.
Definition backslash : ascii := ascii_of_nat 92.

(** One character of [repr(s)], inside the quote [q]. *)
Definition repr_char (q c : ascii) : string :=
  let n := nat_of_ascii c in
  if Ascii.eqb c q || Ascii.eqb c backslash then String backslash (String c "")
  else if (n =? 9)%nat then String backslash "t"
  else if (n =? 10)%nat then String backslash "n"
  else if (n =? 13)%nat then String backslash "r"
  else if (n <? 32)%nat || (n =? 127)%nat
          || ((128 <=? n)%nat && (n <=? 160)%nat) || (n =? 173)%nat
       then String backslash
              (String "x" (String (hex_digit (n / 16))
                                  (String (hex_digit (n mod 16)) "")))
  else String c "".

Fixpoint repr_chars (q : ascii) (s : string) : string :=
  match s with
  | EmptyString => EmptyString
  | String c s' => repr_char q c ++ repr_chars q s'
  end.

(** [repr(s)]: single quotes, unless [s] has a single quote and no
    double quote. *)
Definition repr_str (s : string) : string :=
  let q := if has_char squote s && negb (has_char dquote s)
           then dquote else squote in
  String q (repr_chars q s ++ String q "").

Fixpoint py_repr (v : json) : string :=
  match v with
  | JNull => "None"
  | JBool true => "True"
  | JBool false => "False"
  | JInt n => str_int n
  | JStr s => repr_str s
  | JList l => "[" ++ join ", " (map py_repr l) ++ "]"
  | JDict d =>
      "{" ++ join ", "
               (map (fun kv => match kv with
                               | (k, x) => repr_str k ++ ": " ++ py_repr x
                               end) d) ++ "}"
  end.

(** [str(v)], as an f-string formats [v] *)
Definition py_str (v : json) : string :=
  match v with
  | JStr s => s
  | _ => py_repr v
  end.

Definition type_name (v : json) : string :=
  match v with
  | JNull => "NoneType"
  | JBool _ => "bool"
  | JInt _ => "int"
  | JStr _ => "str"
  | JList _ => "list"
  | JDict _ => "dict"
  end.

(** [bool(v)] *)
Definition truthy (v : json) : bool :=
  match v with
  | JNull => false
  | JBool b => b
  | JInt n => negb (n =? 0)%Z
  | JStr s => negb (s =? "")%string
  | JList l => match l with [] => false | _ => true end
  | JDict d => match d with [] => false | _ => true end
  end.

(** An optional configuration string as a value ([None] or a [str]). *)
Definition of_opt (o : option string) : json :=
  match o with
  | Some s => JStr s
  | None => JNull
  end.

(** *** Dictionaries *)

Fixpoint lookup (k : string) (d : dict) : option json :=
  match d with
  | [] => None
  | (k', v) :: rest => if (k =? k')%string then Some v else lookup k rest
  end.

(** [d[k] = v] *)
Fixpoint dict_set (k : string) (v : json) (d : dict) : dict :=
  match d with
  | [] => [(k, v)]
  | (k', v') :: rest =>
      if (k =? k')%string then (k, v) :: rest
      else (k', v') :: dict_set k v rest
  end.

Definition keys (d : dict) : list string := map fst d.

(** [d.get(k, default)] on a dict *)
Definition dget (d : dict) (k : string) (default : json) : json :=
  match lookup k d with
  | Some v => v
  | None => default
  end.

(** [d[k]] on a dict *)
Definition dgetitem (d : dict) (k : string) : result json :=
  match lookup k d with
  | Some v => Ok v
  | None => Raise (KeyError (repr_str k))
  end.

(** [v[k]] with a string key on any value *)
Definition getitem (v : json) (k : string) : result json :=
  match v with
  | JDict d => dgetitem d k
  | JList _ => Raise (TypeError "list indices must be integers or slices, not str")
  | JStr _ => Raise (TypeError "string indices must be integers, not 'str'")
  | _ => Raise (TypeError ("'" ++ type_name v ++ "' object is not subscriptable"))
  end.

(** [v.get(k, default)] on any value *)
Definition get_attr (v : json) (k : string) (default : json) : result json :=
  match v with
  | JDict d => Ok (dget d k default)
  | _ => Raise (AttributeError
                  ("'" ++ type_name v ++ "' object has no attribute 'get'"))
  end.

Definition str_chars (s : string) : list json :=
  map (fun c => JStr (String c "")) (list_ascii_of_string s).

(** [for x in v] *)
Definition py_iter (v : json) : result (list json) :=
  match v with
  | JList l => Ok l
  | JDict d => Ok (map JStr (keys d))
  | JStr s => Ok (str_chars s)
  | _ => Raise (TypeError ("'" ++ type_name v ++ "' object is not iterable"))
  end.

Definition is_str (k : string) (v : json) : bool :=
  match v with
  | JStr s => (s =? k)%string
  | _ => false
  end.

(** [k in v] for a string [k] *)
Definition py_in (k : string) (v : json) : result bool :=
  match v with
  | JDict d => Ok (existsb (String.eqb k) (keys d))
  | JList l => Ok (existsb (is_str k) l)
  | JStr s => Ok (contains k s)
  | _ => Raise (TypeError
                  ("argument of type '" ++ type_name v ++ "' is not iterable"))
  end.

(** [len(v)] *)
Definition py_len (v : json) : result nat :=
  match v with
  | JStr s => Ok (String.length s)
  | JList l => Ok (List.length l)
  | JDict d => Ok (List.length d)
  | _ => Raise (TypeError
                  ("object of type '" ++ type_name v ++ "' has no len()"))
  end.

(** [min(v, 100)]: the second argument replaces the first when it is
    smaller; [True] and [False] compare as 1 and 0. *)
Definition min_100 (v : json) : result json :=
  match v with
  | JInt n => Ok (if (100 <? n)%Z then JInt 100 else JInt n)
  | JBool b => Ok (JBool b)
  | _ => Raise (TypeError ("'<' not supported between instances of 'int' and '"
                           ++ type_name v ++ "'"))
  end.

(** A dict display: the values are evaluated in order. *)
Fixpoint build_fields (fs : list (string * result json)) : result dict :=
  match fs with
  | [] => Ok []
  | (k, r) :: rest =>
      v <- r ;;
      d <- build_fields rest ;;
      Ok ((k, v) :: d)
  end.

Definition build (fs : list (string * result json)) : result json :=
  d <- build_fields fs ;;
  Ok (JDict d).

(** *** Responses *)

(** [response.json()] *)
Definition json_of (r : Response) : result json :=
  match body r with
  | Some j => Ok j
  | None => Raise (JSONDecodeError (decode_error r))
  end.

(** [response.raise_for_status()] raises for 4xx and 5xx only. *)
Definition raise_for_status (r : Response) : result unit :=
  let s := status_code r in
  if (400 <=? s)%Z && (s <? 500)%Z then
    Raise (HTTPError (str_int s ++ " Client Error: " ++ reason r
                      ++ " for url: " ++ resp_url r) r)
  else if (500 <=? s)%Z && (s <? 600)%Z then
    Raise (HTTPError (str_int s ++ " Server Error: " ++ reason r
                      ++ " for url: " ++ resp_url r) r)
  else Ok tt.

End Py.
Import Py.
Local Open Scope py_scope.

(** ** The outside world *)

(** One call of [requests.request] or [requests.post]. *)
Record Request := {
  rq_method : string;
  rq_url : string;
  rq_headers : list (string * string);
  rq_params : option dict;
  rq_json : option json;
  rq_timeout : Z
}.

Inductive Outcome :=
| Responded (r : Response)
| TimedOut
| ConnectionFailed
| OtherRequestError (msg : string).

Record jwt_payload := { iat : Z; exp : Z; iss : option string }.

(** [base64.b64decode(s).decode('utf-8')] *)
Inductive decoded :=
| Decoded (content : string)
| UnicodeDecodeError
| DecodeFailure (e : exn).

(** What the gateway does not own: the upstream (its answer may depend
    on everything sent before), the key file with its PEM loader, the JWT
    signer and the base64/UTF-8 codecs. *)
Record Env := {
  respond : list Request -> Request -> Outcome;
  load_private_key : string -> result string;
  jwt_encode : jwt_payload -> string -> result string;
  b64decode_utf8 : string -> decoded
}.

(** The clock, in seconds, and the requests issued so far, oldest first. *)
Record State := { now : Z; sent : list Request }.

Definition M (A : Type) : Type := State -> result A * State.

Definition ret {A} (a : A) : M A := fun st => (Ok a, st).
Definition raise {A} (e : exn) : M A := fun st => (Raise e, st).
Definition lift {A} (r : result A) : M A := fun st => (r, st).

Definition bind {A B} (m : M A) (k : A -> M B) : M B :=
  fun st =>
    match m st with
    | (Ok a, st') => k a st'
    | (Raise e, st') => (Raise e, st')
    end.

Notation "x <-- m ;; k" := (bind m (fun x => k))
  (at level 61, m at next level, right associativity) : py_scope.

(** ** The client: [GitHubClient] *)

(** The fields [__init__] sets. *)
Record Config := {
  repo_owner : option string;
  repo_name : option string;
  pat : option string;
  app_id : option string;
  installation_id : option string;
  private_key_path : option string;
  api_base : string
}.

(** What [__init__] reads: the environment variables, the git remote and
    the PAT file. *)
Record Process := {
  getenv : string -> option string;
  git_remote : git_run;
  read_file : string -> option string
}.

Definition GitHubClient_init (p : Process) : Config :=
  let owner0 := getenv p "GITHUB_OWNER" in
  let name0 := getenv p "GITHUB_REPO" in
  let detected :=
    if negb (truthy_opt owner0) || negb (truthy_opt name0)
    then _detect_git_repo (git_remote p) else None in
  let owner1 :=
    match detected with
    | Some (o, _) => if truthy_opt owner0 then owner0 else Some o
    | None => owner0
    end in
  let name1 :=
    match detected with
    | Some (_, r) => if truthy_opt name0 then name0 else Some r
    | None => name0
    end in
  let pat0 := getenv p "GITHUB_PAT" in
  let pat1 :=
    if negb (truthy_opt pat0) && truthy_opt (getenv p "GITHUB_PAT_FILE") then
      match read_file p (str_opt (getenv p "GITHUB_PAT_FILE")) with
      | Some text => Some (strip text)
      | None => pat0
      end
    else pat0 in
  {| repo_owner := owner1;
     repo_name := name1;
     pat := pat1;
     app_id := getenv p "GITHUB_APP_ID";
     installation_id := getenv p "GITHUB_INSTALLATION_ID";
     private_key_path := getenv p "GITHUB_PRIVATE_KEY_PATH";
     api_base := match getenv p "GITHUB_API_URL" with
                 | Some u => u
                 | None => "https://api.github.com"
                 end |}.

(** Keyword arguments a handler passes to [request]. *)
Record Kwargs := {
  kw_params : option dict;
  kw_json : option json;
  kw_headers : option (list (string * string));
  kw_timeout : option Z
}.

Definition no_kwargs : Kwargs :=
  {| kw_params := None; kw_json := None; kw_headers := None; kw_timeout := None |}.
Definition with_params (d : dict) : Kwargs :=
  {| kw_params := Some d; kw_json := None; kw_headers := None; kw_timeout := None |}.
Definition with_json (j : json) : Kwargs :=
  {| kw_params := None; kw_json := Some j; kw_headers := None; kw_timeout := None |}.
Definition with_headers (h : list (string * string)) : Kwargs :=
  {| kw_params := None; kw_json := None; kw_headers := Some h; kw_timeout := None |}.

(** [h[k] = v] on a header dict *)
Fixpoint header_set (k v : string) (h : list (string * string))
  : list (string * string) :=
  match h with
  | [] => [(k, v)]
  | (k', v') :: rest =>
      if (k =? k')%string then (k, v) :: rest
      else (k', v') :: header_set k v rest
  end.

Fixpoint header_get (k : string) (h : list (string * string)) : option string :=
  match h with
  | [] => None
  | (k', v) :: rest => if (k =? k')%string then Some v else header_get k rest
  end.

Definition accept_v3 : string := "application/vnd.github.v3+json".

Definition default_headers : list (string * string) :=
  [("Accept", accept_v3); ("User-Agent", "feather-code-mcp/1.0.0")].

Section Gateway.

Variable env : Env.
Variable github : Config.

(** Issue one request: it is logged, and the upstream answers. *)
Definition send (rq : Request) : State -> Outcome * State :=
  fun st =>
    (respond env (sent st) rq,
     {| now := now st; sent := (sent st ++ [rq])%list |}).

(** [all([self.app_id, self.installation_id, self.private_key_path])] *)
Definition app_configured : bool :=
  truthy_opt (app_id github) && truthy_opt (installation_id github)
  && truthy_opt (private_key_path github).

Definition exchange_request (jwt_token : string) : Request :=
  {| rq_method := "POST";
     rq_url := api_base github ++ "/app/installations/"
               ++ str_opt (installation_id github) ++ "/access_tokens";
     rq_headers := [("Authorization", "Bearer " ++ jwt_token);
                    ("Accept", accept_v3)];
     rq_params := None;
     rq_json := None;
     rq_timeout := 10 |}.

Definition _get_app_token : M json :=
  fun st =>
    match private_key_path github with
    | None =>
        (Raise (TypeError
                  "expected str, bytes or os.PathLike object, not NoneType"), st)
    | Some path =>
        match load_private_key env path with
        | Raise e => (Raise e, st)
        | Ok private_key =>
            let payload := {| iat := now st;
                              exp := (now st + 600)%Z;
                              iss := app_id github |} in
            match jwt_encode env payload private_key with
            | Raise e => (Raise e, st)
            | Ok jwt_token =>
                match send (exchange_request jwt_token) st with
                | (Responded response, st') =>
                    if (status_code response =? 201)%Z then
                      (j <- json_of response ;; getitem j "token", st')
                    else
                      (Raise (Exception_
                                ("Failed to get installation token: "
                                 ++ str_int (status_code response))), st')
                | (TimedOut, st') => (Raise Timeout, st')
                | (ConnectionFailed, st') => (Raise ConnectionError, st')
                | (OtherRequestError m, st') => (Raise (RequestException m), st')
                end
            end
        end
    end.

(** [_get_headers] cannot raise: the exchange sits in a [try]. *)
Definition _get_headers : State -> list (string * string) * State :=
  fun st =>
    let headers := default_headers in
    if truthy_opt (pat github) then
      (header_set "Authorization" ("token " ++ str_opt (pat github)) headers, st)
    else if app_configured then
      match _get_app_token st with
      | (Ok token, st') =>
          (header_set "Authorization" ("token " ++ py_str token) headers, st')
      | (Raise _, st') => (headers, st')
      end
    else (headers, st).

(** The request [request] hands to [requests.request]; the timeout
    defaults to 30 seconds. *)
Definition outbound (method endpoint : string) (kwargs : Kwargs)
  (headers : list (string * string)) : Request :=
  {| rq_method := method;
     rq_url := api_base github ++ endpoint;
     rq_headers := headers;
     rq_params := kw_params kwargs;
     rq_json := kw_json kwargs;
     rq_timeout := match kw_timeout kwargs with
                   | Some t => t
                   | None => 30%Z
                   end |}.

(** The two [except] clauses of [request]; other transport errors pass. *)
Definition transport (o : Outcome) : result Response :=
  match o with
  | Responded response => Ok response
  | TimedOut => Raise (Exception_ "GitHub API request timed out")
  | ConnectionFailed => Raise (Exception_ "Failed to connect to GitHub API")
  | OtherRequestError m => Raise (RequestException m)
  end.

(** [request]: the call [requests.request(method=..., url=...,
    headers=self._get_headers(), **kwargs)] evaluates its explicit
    arguments first and then merges [kwargs]; a [headers] key in
    [kwargs] collides with the explicit one. *)
Definition request (method endpoint : string) (kwargs : Kwargs) : M Response :=
  fun st =>
    let (headers, st1) := _get_headers st in
    match kw_headers kwargs with
    | Some _ =>
        (Raise (TypeError
                  "requests.api.request() got multiple values for keyword argument 'headers'"),
         st1)
    | None =>
        let (o, st2) := send (outbound method endpoint kwargs headers) st1 in
        (transport o, st2)
    end.

(** ** The tool handlers *)

Definition repo_path (owner repo : json) : string :=
  "/repos/" ++ py_str owner ++ "/" ++ py_str repo.

(** [if params.get(k): target[k] = params[k]] *)
Definition copy_if_truthy (params : dict) (k : string) (target : dict) : dict :=
  if truthy (dget params k JNull)
  then dict_set k (dget params k JNull) target
  else target.

(** [if response.status_code != expected: response.raise_for_status()] *)
Definition expect_status (expected : Z) (response : Response) : result unit :=
  if negb (status_code response =? expected)%Z
  then raise_for_status response
  else Ok tt.

Definition check_404 (response : Response) (msg : string) (k : result unit)
  : result unit :=
  if (status_code response =? 404)%Z then Raise (Exception_ msg) else k.

(** [(x["body"][:200] + "...") if x.get("body") and len(x["body"]) > 200
    else x.get("body", "")] *)
Definition short_body (x : json) : result json :=
  b <- get_attr x "body" JNull ;;
  if truthy b then
    b1 <- getitem x "body" ;;
    n <- py_len b1 ;;
    if (200 <? n)%nat then
      b2 <- getitem x "body" ;;
      match b2 with
      | JStr s => Ok (JStr (take 200 s ++ "..."))
      | JList _ =>
          Raise (TypeError ("can only concatenate list (not "
                            ++ String dquote ("str" ++ String dquote ") to list")))
      | _ => Raise (KeyError "slice(None, 200, None)")
      end
    else get_attr x "body" (JStr "")
  else get_attr x "body" (JStr "").

(** [[x[k] for x in v]] *)
Definition pluck (k : string) (v : json) : result json :=
  items <- py_iter v ;;
  names <- map_result (fun x => getitem x k) items ;;
  Ok (JList names).

(** [x[k1][k2]] *)
Definition getitem2 (x : json) (k1 k2 : string) : result json :=
  y <- getitem x k1 ;;
  getitem y k2.

Definition get_repository_info (owner repo : json) : M json :=
  response <-- request "GET" (repo_path owner repo) no_kwargs ;;
  lift (
    (if (status_code response =? 404)%Z then
            Raise (Exception_ ("Repository '" ++ py_str owner ++ "/"
                               ++ py_str repo ++ "' not found"))
          else if (status_code response =? 403)%Z then
            Raise (Exception_
                     "API rate limit exceeded or insufficient permissions")
          else expect_status 200 response) ;;
    data <- json_of response ;;
    build [("name", getitem data "name");
           ("full_name", getitem data "full_name");
           ("description", getitem data "description");
           ("private", getitem data "private");
           ("html_url", getitem data "html_url");
           ("default_branch", getitem data "default_branch");
           ("language", getitem data "language");
           ("stargazers_count", getitem data "stargazers_count");
           ("watchers_count", getitem data "watchers_count");
           ("forks_count", getitem data "forks_count");
           ("open_issues_count", getitem data "open_issues_count");
           ("created_at", getitem data "created_at");
           ("updated_at", getitem data "updated_at");
           ("pushed_at", getitem data "pushed_at");
           ("topics", get_attr data "topics" (JList []));
           ("license",
            (l <- get_attr data "license" JNull ;;
             if truthy l then getitem2 data "license" "name" else Ok JNull))]).

(** The dict [list_issues] appends for one issue. *)
Definition issue_entry (issue : json) : result json :=
  build [("number", getitem issue "number");
         ("title", getitem issue "title");
         ("state", getitem issue "state");
         ("html_url", getitem issue "html_url");
         ("user", getitem2 issue "user" "login");
         ("labels", (ls <- getitem issue "labels" ;; pluck "name" ls));
         ("created_at", getitem issue "created_at");
         ("updated_at", getitem issue "updated_at");
         ("comments", getitem issue "comments");
         ("body", short_body issue)].

(** The loop of [list_issues]: pull requests are skipped. *)
Fixpoint issues_loop (issues : list json) : result (list json) :=
  match issues with
  | [] => Ok []
  | issue :: rest =>
      is_pr <- py_in "pull_request" issue ;;
      if is_pr : bool then issues_loop rest
      else
        entry <- issue_entry issue ;;
        entries <- issues_loop rest ;;
        Ok (entry :: entries)
  end.

Definition list_issues_query (params : dict) : result dict :=
  per_page <- min_100 (dget params "per_page" (JInt 30)) ;;
  Ok (copy_if_truthy params "labels"
        [("state", dget params "state" (JStr "open"));
         ("per_page", per_page)]).

Definition list_issues (owner repo : json) (params : dict) : M json :=
  query_params <-- lift (list_issues_query params) ;;
  response <-- request "GET" (repo_path owner repo ++ "/issues")
                       (with_params query_params) ;;
  lift (
    expect_status 200 response ;;
    issues <- json_of response ;;
    items <- py_iter issues ;;
    result <- issues_loop items ;;
    Ok (JList result)).

Definition create_issue (owner repo : json) (params : dict) : M json :=
  if negb (truthy (dget params "title" JNull)) then
    raise (ValueError "Issue title is required")
  else
    title <-- lift (dgetitem params "title") ;;
    let data := [("title", title); ("body", dget params "body" (JStr ""))] in
    let data := copy_if_truthy params "labels" data in
    let data := copy_if_truthy params "assignees" data in
    response <-- request "POST" (repo_path owner repo ++ "/issues")
                         (with_json (JDict data)) ;;
    lift (
      (if (status_code response =? 404)%Z then
              Raise (Exception_ ("Repository '" ++ py_str owner ++ "/"
                                 ++ py_str repo ++ "' not found"))
            else if (status_code response =? 422)%Z then
              error_data <- json_of response ;;
              m <- get_attr error_data "message" (JStr "Unknown error") ;;
              Raise (ValueError ("Invalid issue data: " ++ py_str m))
            else expect_status 201 response) ;;
      issue <- json_of response ;;
      build [("number", getitem issue "number");
             ("title", getitem issue "title");
             ("html_url", getitem issue "html_url");
             ("state", getitem issue "state");
             ("created_at", getitem issue "created_at");
             ("message", Ok (JStr "Issue created successfully"))]).

(** One element of the list [get_pull_requests] returns. *)
Definition pr_entry (pr : json) : result json :=
  build [("number", getitem pr "number");
         ("title", getitem pr "title");
         ("state", getitem pr "state");
         ("html_url", getitem pr "html_url");
         ("user", getitem2 pr "user" "login");
         ("created_at", getitem pr "created_at");
         ("updated_at", getitem pr "updated_at");
         ("draft", get_attr pr "draft" (JBool false));
         ("merged", get_attr pr "merged" (JBool false));
         ("merged_at", get_attr pr "merged_at" JNull);
         ("head", getitem2 pr "head" "ref");
         ("base", getitem2 pr "base" "ref");
         ("body", short_body pr)].

Definition get_pull_requests (owner repo : json) (params : dict) : M json :=
  let query_params := [("state", dget params "state" (JStr "open"));
                       ("sort", dget params "sort" (JStr "created"));
                       ("direction", dget params "direction" (JStr "desc"))] in
  response <-- request "GET" (repo_path owner repo ++ "/pulls")
                       (with_params query_params) ;;
  lift (
    expect_status 200 response ;;
    prs <- json_of response ;;
    items <- py_iter prs ;;
    result <- map_result pr_entry items ;;
    Ok (JList result)).

Definition update_issue (owner repo : json) (params : dict) : M json :=
  issue_number <-- lift (dgetitem params "issue_number") ;;
  let data := copy_if_truthy params "title" [] in
  let data := copy_if_truthy params "body" data in
  let data := copy_if_truthy params "state" data in
  let data := copy_if_truthy params "labels" data in
  let data := copy_if_truthy params "assignees" data in
  response <-- request "PATCH" (repo_path owner repo ++ "/issues/"
                                ++ py_str issue_number)
                       (with_json (JDict data)) ;;
  lift (
    check_404 response ("Issue #" ++ py_str issue_number ++ " not found")
           (expect_status 200 response) ;;
    issue <- json_of response ;;
    build [("number", getitem issue "number");
           ("title", getitem issue "title");
           ("state", getitem issue "state");
           ("html_url", getitem issue "html_url");
           ("updated_at", getitem issue "updated_at");
           ("message", Ok (JStr "Issue updated successfully"))]).

Definition get_issue (owner repo : json) (params : dict) : M json :=
  issue_number <-- lift (dgetitem params "issue_number") ;;
  response <-- request "GET" (repo_path owner repo ++ "/issues/"
                              ++ py_str issue_number) no_kwargs ;;
  lift (
    check_404 response ("Issue #" ++ py_str issue_number ++ " not found")
           (expect_status 200 response) ;;
    issue <- json_of response ;;
    build [("number", getitem issue "number");
           ("title", getitem issue "title");
           ("state", getitem issue "state");
           ("html_url", getitem issue "html_url");
           ("user", getitem2 issue "user" "login");
           ("labels", (ls <- getitem issue "labels" ;; pluck "name" ls));
           ("assignees", (xs <- getitem issue "assignees" ;; pluck "login" xs));
           ("created_at", getitem issue "created_at");
           ("updated_at", getitem issue "updated_at");
           ("comments", getitem issue "comments");
           ("body", getitem issue "body")]).

Definition create_pull_request (owner repo : json) (params : dict) : M json :=
  repo_response <-- request "GET" (repo_path owner repo) no_kwargs ;;
  default_branch <-- lift (
    if (status_code repo_response =? 200)%Z then
      info <- json_of repo_response ;;
      get_attr info "default_branch" (JStr "main")
    else Ok (JStr "main")) ;;
  title <-- lift (dgetitem params "title") ;;
  head <-- lift (dgetitem params "head") ;;
  let data := [("title", title); ("head", head);
               ("base", dget params "base" default_branch)] in
  let data := copy_if_truthy params "body" data in
  let data := copy_if_truthy params "draft" data in
  response <-- request "POST" (repo_path owner repo ++ "/pulls")
                       (with_json (JDict data)) ;;
  lift (
    (if (status_code response =? 422)%Z then
            error_data <- json_of response ;;
            m <- get_attr error_data "message" (JStr "Unknown error") ;;
            Raise (ValueError ("Invalid pull request data: " ++ py_str m))
          else expect_status 201 response) ;;
    pr <- json_of response ;;
    build [("number", getitem pr "number");
           ("title", getitem pr "title");
           ("html_url", getitem pr "html_url");
           ("state", getitem pr "state");
           ("draft", get_attr pr "draft" (JBool false));
           ("head", getitem2 pr "head" "ref");
           ("base", getitem2 pr "base" "ref");
           ("created_at", getitem pr "created_at");
           ("message", Ok (JStr "Pull request created successfully"))]).

Definition get_pull_request (owner repo : json) (params : dict) : M json :=
  pr_number <-- lift (dgetitem params "pr_number") ;;
  response <-- request "GET" (repo_path owner repo ++ "/pulls/"
                              ++ py_str pr_number) no_kwargs ;;
  lift (
    check_404 response
           ("Pull request #" ++ py_str pr_number ++ " not found")
           (expect_status 200 response) ;;
    pr <- json_of response ;;
    build [("number", getitem pr "number");
           ("title", getitem pr "title");
           ("state", getitem pr "state");
           ("html_url", getitem pr "html_url");
           ("user", getitem2 pr "user" "login");
           ("draft", get_attr pr "draft" (JBool false));
           ("merged", get_attr pr "merged" (JBool false));
           ("mergeable", get_attr pr "mergeable" JNull);
           ("head", build [("ref", getitem2 pr "head" "ref");
                           ("sha", getitem2 pr "head" "sha")]);
           ("base", build [("ref", getitem2 pr "base" "ref");
                           ("sha", getitem2 pr "base" "sha")]);
           ("created_at", getitem pr "created_at");
           ("updated_at", getitem pr "updated_at");
           ("merged_at", get_attr pr "merged_at" JNull);
           ("body", getitem pr "body")]).

Definition branch_entry (branch : json) : result json :=
  build [("name", getitem branch "name");
         ("commit", build [("sha", getitem2 branch "commit" "sha");
                           ("url", getitem2 branch "commit" "url")]);
         ("protected", get_attr branch "protected" (JBool false))].

Definition list_branches (owner repo : json) (params : dict) : M json :=
  per_page <-- lift (min_100 (dget params "per_page" (JInt 30))) ;;
  let query_params := [("per_page", per_page)] in
  let query_params :=
    match dget params "protected" JNull with
    | JNull => query_params
    | v => dict_set "protected" v query_params
    end in
  response <-- request "GET" (repo_path owner repo ++ "/branches")
                       (with_params query_params) ;;
  lift (
    expect_status 200 response ;;
    branches <- json_of response ;;
    items <- py_iter branches ;;
    result <- map_result branch_entry items ;;
    Ok (JList result)).

(** [x["commit"][who][field]] *)
Definition commit_person (x : json) (who field : string) : result json :=
  c <- getitem2 x "commit" who ;;
  getitem c field.

Definition commit_entry (commit : json) : result json :=
  build [("sha", getitem commit "sha");
         ("message", getitem2 commit "commit" "message");
         ("author", build [("name", commit_person commit "author" "name");
                           ("email", commit_person commit "author" "email");
                           ("date", commit_person commit "author" "date")]);
         ("committer",
          build [("name", commit_person commit "committer" "name");
                 ("email", commit_person commit "committer" "email");
                 ("date", commit_person commit "committer" "date")]);
         ("html_url", getitem commit "html_url");
         ("stats", get_attr commit "stats" (JDict []));
         ("files", (fs <- get_attr commit "files" (JList []) ;;
                    n <- py_len fs ;;
                    Ok (JInt (Z.of_nat n))))].

Definition get_commits (owner repo : json) (params : dict) : M json :=
  per_page <-- lift (min_100 (dget params "per_page" (JInt 30))) ;;
  let query_params :=
    fold_left (fun q param => copy_if_truthy params param q)
              ["sha"; "path"; "author"; "since"; "until"]
              [("per_page", per_page)] in
  response <-- request "GET" (repo_path owner repo ++ "/commits")
                       (with_params query_params) ;;
  lift (
    expect_status 200 response ;;
    commits <- json_of response ;;
    items <- py_iter commits ;;
    result <- map_result commit_entry items ;;
    Ok (JList result)).

Definition directory_item (item : json) : result json :=
  build [("name", getitem item "name");
         ("type", getitem item "type");
         ("size", get_attr item "size" JNull);
         ("html_url", getitem item "html_url")].

(** The decoded text of a file, as the [try] around the decoder
    leaves it. *)
Definition file_text (file_data : json) : result string :=
  c <- get_attr file_data "content" JNull ;;
  if truthy c then
    raw <- getitem file_data "content" ;;
    match raw with
    | JStr s =>
        match b64decode_utf8 env s with
        | Decoded content => Ok content
        | UnicodeDecodeError => Ok "[Binary file - content not displayable]"
        | DecodeFailure e => Raise e
        end
    | _ => Raise (TypeError
                    ("argument should be a bytes-like object or ASCII string, not '"
                     ++ type_name raw ++ "'"))
    end
  else Ok "".

(** [content[:2000] + "..." if len(content) > 2000 else content] *)
Definition short_content (content : string) : string :=
  if (2000 <? String.length content)%nat
  then take 2000 content ++ "..."
  else content.

Definition get_file_content (owner repo : json) (params : dict) : M json :=
  path <-- lift (dgetitem params "path") ;;
  let query_params := copy_if_truthy params "ref" [] in
  response <-- request "GET" (repo_path owner repo ++ "/contents/"
                              ++ py_str path)
                       (with_params query_params) ;;
  lift (
    check_404 response ("File '" ++ py_str path ++ "' not found")
           (expect_status 200 response) ;;
    file_data <- json_of response ;;
    match file_data with
    | JList items =>
        build [("type", Ok (JStr "directory"));
               ("path", Ok path);
               ("contents", (contents <- map_result directory_item items ;;
                             Ok (JList contents)))]
    | _ =>
        content <- file_text file_data ;;
        build [("type", Ok (JStr "file"));
               ("name", getitem file_data "name");
               ("path", getitem file_data "path");
               ("size", getitem file_data "size");
               ("sha", getitem file_data "sha");
               ("html_url", getitem file_data "html_url");
               ("download_url", get_attr file_data "download_url" JNull);
               ("content", Ok (JStr (short_content content)))]
    end).

Definition search_item (item : json) : result json :=
  build [("name", getitem item "name");
         ("path", getitem item "path");
         ("sha", getitem item "sha");
         ("html_url", getitem item "html_url");
         ("score", getitem item "score")].

(** [if params.get(k): query += f" {k}:{params[k]}"] *)
Definition add_filter (params : dict) (k : string) (query : string) : string :=
  if truthy (dget params k JNull)
  then query ++ " " ++ k ++ ":" ++ py_str (dget params k JNull)
  else query.

Definition search_code (owner repo : json) (params : dict) : M json :=
  q <-- lift (dgetitem params "query") ;;
  let query := py_str q ++ " repo:" ++ py_str owner ++ "/" ++ py_str repo in
  let query := add_filter params "filename" query in
  let query := add_filter params "extension" query in
  let query := add_filter params "path" query in
  response <-- request "GET" "/search/code" (with_params [("q", JStr query)]) ;;
  lift (
    expect_status 200 response ;;
    results <- json_of response ;;
    build [("total_count", getitem results "total_count");
           ("items", (xs <- get_attr results "items" (JList []) ;;
                      items <- py_iter xs ;;
                      out <- map_result search_item items ;;
                      Ok (JList out)))]).

Definition add_issue_comment (owner repo : json) (params : dict) : M json :=
  issue_number <-- lift (dgetitem params "issue_number") ;;
  body_text <-- lift (dgetitem params "body") ;;
  response <-- request "POST" (repo_path owner repo ++ "/issues/"
                               ++ py_str issue_number ++ "/comments")
                       (with_json (JDict [("body", body_text)])) ;;
  lift (
    check_404 response ("Issue #" ++ py_str issue_number ++ " not found")
           (expect_status 201 response) ;;
    comment <- json_of response ;;
    build [("id", getitem comment "id");
           ("html_url", getitem comment "html_url");
           ("user", getitem2 comment "user" "login");
           ("created_at", getitem comment "created_at");
           ("body", getitem comment "body");
           ("message", Ok (JStr "Comment added successfully"))]).

(** What a handler hands to [json.dumps].  The percentages of
    [get_repository_languages] are floats and stay symbolic:
    [Languages entries total] is the dict
    [{"languages": {lang: {"bytes": b, "percentage":
    round((b / total) * 100, 2)} for lang, b in entries},
    "total_bytes": total}]. *)
Inductive payload :=
| Data (v : json)
| Languages (entries : list (string * json)) (total_bytes : Z).

(** [sum(values)]: integers and booleans add up, anything else does not. *)
Fixpoint sum_values (acc : Z) (values : list json) : result Z :=
  match values with
  | [] => Ok acc
  | v :: rest =>
      match v with
      | JInt n => sum_values (acc + n) rest
      | JBool b => sum_values (acc + (if b then 1 else 0)) rest
      | _ => Raise (TypeError ("unsupported operand type(s) for +: 'int' and '"
                               ++ type_name v ++ "'"))
      end
  end.

(** [b / total] raises when the quotient rounds beyond the largest
    float. *)
Definition true_div_overflows (b total : Z) : bool :=
  ((2 ^ 1024 - 2 ^ 970) * total <=? Z.abs b)%Z.

Definition int_value (v : json) : Z :=
  match v with
  | JInt n => n
  | JBool true => 1
  | _ => 0
  end.

Definition get_repository_languages (owner repo : json) : M payload :=
  response <-- request "GET" (repo_path owner repo ++ "/languages") no_kwargs ;;
  lift (
    expect_status 200 response ;;
    languages <- json_of response ;;
    match languages with
    | JDict d =>
        total_bytes <- sum_values 0 (map snd d) ;;
        if (0 <? total_bytes)%Z then
          if existsb (fun kv => true_div_overflows (int_value (snd kv))
                                                   total_bytes) d
          then Raise (OverflowError
                        "integer division result too large for a float")
          else Ok (Languages d total_bytes)
        else Ok (Data (JDict [("languages", JDict []);
                              ("total_bytes", JInt 0)]))
    | _ => Raise (AttributeError ("'" ++ type_name languages
                                  ++ "' object has no attribute 'values'"))
    end).

Definition topics_accept : string := "application/vnd.github.mercy-preview+json".

(** The header dict [{**github._get_headers(), 'Accept': ...}] is built
    before [request] is entered. *)
Definition get_repository_topics (owner repo : json) : M json :=
  fun st =>
    let (base, st1) := _get_headers st in
    (response <-- request "GET" (repo_path owner repo ++ "/topics")
                          (with_headers (header_set "Accept" topics_accept base)) ;;
     lift (
       expect_status 200 response ;;
       topics_data <- json_of response ;;
       build [("topics", get_attr topics_data "names" (JList []));
              ("count", (names <- get_attr topics_data "names" (JList []) ;;
                         n <- py_len names ;;
                         Ok (JInt (Z.of_nat n))))])) st1.

(** ** The router: [handle_call_tool] *)

(** The [text] of a reply: a plain string, or
    [json.dumps(p, indent=2, ensure_ascii=False)]. *)
Inductive Text :=
| Plain (s : string)
| JsonDumps (p : payload).

Record TextContent := { type_ : string; text : Text }.

Definition text_content (t : Text) : TextContent :=
  {| type_ := "text"; text := t |}.

Definition valid_tools : list string :=
  ["get_repository_info"; "list_issues"; "create_issue"; "get_pull_requests";
   "update_issue"; "get_issue"; "create_pull_request"; "get_pull_request";
   "list_branches"; "get_commits"; "get_file_content"; "search_code";
   "add_issue_comment"; "get_repository_languages"; "get_repository_topics"].

Definition data (m : M json) : M payload :=
  v <-- m ;; ret (Data v).

(** The [if]/[elif] chain on the tool name. *)
Definition dispatch (name : string) (owner repo : json) (arguments : dict)
  : M payload :=
  if (name =? "get_repository_info")%string then
    data (get_repository_info owner repo)
  else if (name =? "list_issues")%string then
    data (list_issues owner repo arguments)
  else if (name =? "create_issue")%string then
    data (create_issue owner repo arguments)
  else if (name =? "get_pull_requests")%string then
    data (get_pull_requests owner repo arguments)
  else if (name =? "update_issue")%string then
    data (update_issue owner repo arguments)
  else if (name =? "get_issue")%string then
    data (get_issue owner repo arguments)
  else if (name =? "create_pull_request")%string then
    data (create_pull_request owner repo arguments)
  else if (name =? "get_pull_request")%string then
    data (get_pull_request owner repo arguments)
  else if (name =? "list_branches")%string then
    data (list_branches owner repo arguments)
  else if (name =? "get_commits")%string then
    data (get_commits owner repo arguments)
  else if (name =? "get_file_content")%string then
    data (get_file_content owner repo arguments)
  else if (name =? "search_code")%string then
    data (search_code owner repo arguments)
  else if (name =? "add_issue_comment")%string then
    data (add_issue_comment owner repo arguments)
  else if (name =? "get_repository_languages")%string then
    get_repository_languages owner repo
  else if (name =? "get_repository_topics")%string then
    data (get_repository_topics owner repo)
  else
    raise (UnboundLocalError
             "cannot access local variable 'result' where it is not associated with a value").

(** The message of the [except requests.exceptions.HTTPError] branch. *)
Definition http_error_text (msg : string) (response : Response) : string :=
  match json_of response with
  | Ok (JDict error_detail) =>
      "GitHub API error: " ++ py_str (dget error_detail "message" (JStr msg))
  | _ => "GitHub API error: " ++ msg
  end.

(** The texts of the two [except] branches. *)
Definition failure_text (name : string) (e : exn) : string :=
  match e with
  | HTTPError msg response => http_error_text msg response
  | _ => "Error executing tool '" ++ name ++ "': " ++ str_exn e
  end.

Definition unknown_tool_text (name : string) : string :=
  "Error: Unknown tool '" ++ name ++ "'. Available tools: "
  ++ join ", " valid_tools.

Definition no_repository_text : string :=
  "Error: Repository not specified. Set GITHUB_OWNER/GITHUB_REPO environment variables or run from a git repository.".

Definition no_auth_text : string :=
  "Error: No GitHub authentication configured. Set GITHUB_PAT or configure GitHub App credentials.".

Definition handle_call_tool (name : string) (arguments : dict)
  : State -> list TextContent * State :=
  fun st =>
    if negb (existsb (String.eqb name) valid_tools) then
      ([text_content (Plain (unknown_tool_text name))], st)
    else
      let owner := dget arguments "owner" (of_opt (repo_owner github)) in
      let repo := dget arguments "repo" (of_opt (repo_name github)) in
      if negb (truthy owner) || negb (truthy repo) then
        ([text_content (Plain no_repository_text)], st)
      else if negb (truthy_opt (pat github)) && negb app_configured then
        ([text_content (Plain no_auth_text)], st)
      else
        match dispatch name owner repo arguments st with
        | (Ok result, st') => ([text_content (JsonDumps result)], st')
        | (Raise e, st') => ([text_content (Plain (failure_text name e))], st')
        end.

End Gateway.

(** ** The tool list: [handle_list_tools] *)

(** A [types.Tool]: its name, its description and its JSON Schema. *)
Record Tool := {
  tool_name : string;
  description : string;
  inputSchema : json
}.

Definition handle_list_tools : list Tool :=
  [
  {| tool_name := "get_repository_info";
     description := "Get information about the current GitHub repository";
     inputSchema :=
       JDict
        [("type", JStr "object");
         ("properties", JDict
          [("owner", JDict
            [("type", JStr "string");
             ("description", JStr "Repository owner (optional, uses env/git if not provided)")]);
           ("repo", JDict
            [("type", JStr "string");
             ("description", JStr "Repository name (optional, uses env/git if not provided)")])]);
         ("additionalProperties", JBool false)] |};
  {| tool_name := "list_issues";
     description := "List issues in a GitHub repository";
     inputSchema :=
       JDict
        [("type", JStr "object");
         ("properties", JDict
          [("state", JDict
            [("type", JStr "string");
             ("enum", JList [JStr "open"; JStr "closed"; JStr "all"]);
             ("description", JStr "Filter by issue state");
             ("default", JStr "open")]);
           ("labels", JDict
            [("type", JStr "string");
             ("description", JStr "Comma-separated list of labels to filter by")]);
           ("per_page", JDict
            [("type", JStr "integer");
             ("description", JStr "Number of issues per page (max 100)");
             ("default", JInt 30);
             ("minimum", JInt 1);
             ("maximum", JInt 100)])]);
         ("additionalProperties", JBool false)] |};
  {| tool_name := "create_issue";
     description := "Create a new issue in a GitHub repository";
     inputSchema :=
       JDict
        [("type", JStr "object");
         ("properties", JDict
          [("title", JDict
            [("type", JStr "string");
             ("description", JStr "Issue title")]);
           ("body", JDict
            [("type", JStr "string");
             ("description", JStr "Issue body/description")]);
           ("labels", JDict
            [("type", JStr "array");
             ("items", JDict [("type", JStr "string")]);
             ("description", JStr "Labels to add to the issue")]);
           ("assignees", JDict
            [("type", JStr "array");
             ("items", JDict [("type", JStr "string")]);
             ("description", JStr "Usernames to assign to the issue")])]);
         ("required", JList [JStr "title"]);
         ("additionalProperties", JBool false)] |};
  {| tool_name := "get_pull_requests";
     description := "List pull requests in a GitHub repository";
     inputSchema :=
       JDict
        [("type", JStr "object");
         ("properties", JDict
          [("state", JDict
            [("type", JStr "string");
             ("enum", JList [JStr "open"; JStr "closed"; JStr "all"]);
             ("description", JStr "Filter by PR state");
             ("default", JStr "open")]);
           ("sort", JDict
            [("type", JStr "string");
             ("enum", JList [JStr "created"; JStr "updated"; JStr "popularity"; JStr "long-running"]);
             ("description", JStr "Sort order");
             ("default", JStr "created")]);
           ("direction", JDict
            [("type", JStr "string");
             ("enum", JList [JStr "asc"; JStr "desc"]);
             ("description", JStr "Sort direction");
             ("default", JStr "desc")])]);
         ("additionalProperties", JBool false)] |};
  {| tool_name := "update_issue";
     description := "Update an existing GitHub issue";
     inputSchema :=
       JDict
        [("type", JStr "object");
         ("properties", JDict
          [("issue_number", JDict
            [("type", JStr "integer");
             ("description", JStr "Issue number to update")]);
           ("title", JDict
            [("type", JStr "string");
             ("description", JStr "New issue title")]);
           ("body", JDict
            [("type", JStr "string");
             ("description", JStr "New issue body/description")]);
           ("state", JDict
            [("type", JStr "string");
             ("enum", JList [JStr "open"; JStr "closed"]);
             ("description", JStr "Issue state")]);
           ("labels", JDict
            [("type", JStr "array");
             ("items", JDict [("type", JStr "string")]);
             ("description", JStr "Labels to set on the issue")]);
           ("assignees", JDict
            [("type", JStr "array");
             ("items", JDict [("type", JStr "string")]);
             ("description", JStr "Usernames to assign to the issue")])]);
         ("required", JList [JStr "issue_number"]);
         ("additionalProperties", JBool false)] |};
  {| tool_name := "get_issue";
     description := "Get details of a specific GitHub issue";
     inputSchema :=
       JDict
        [("type", JStr "object");
         ("properties", JDict
          [("issue_number", JDict
            [("type", JStr "integer");
             ("description", JStr "Issue number to retrieve")])]);
         ("required", JList [JStr "issue_number"]);
         ("additionalProperties", JBool false)] |};
  {| tool_name := "create_pull_request";
     description := "Create a new pull request";
     inputSchema :=
       JDict
        [("type", JStr "object");
         ("properties", JDict
          [("title", JDict
            [("type", JStr "string");
             ("description", JStr "Pull request title")]);
           ("body", JDict
            [("type", JStr "string");
             ("description", JStr "Pull request description")]);
           ("head", JDict
            [("type", JStr "string");
             ("description", JStr "Branch name containing changes")]);
           ("base", JDict
            [("type", JStr "string");
             ("description", JStr "Target branch (default: repository default branch)");
             ("default", JStr "main")]);
           ("draft", JDict
            [("type", JStr "boolean");
             ("description", JStr "Create as draft PR");
             ("default", JBool false)])]);
         ("required", JList [JStr "title"; JStr "head"]);
         ("additionalProperties", JBool false)] |};
  {| tool_name := "get_pull_request";
     description := "Get details of a specific pull request";
     inputSchema :=
       JDict
        [("type", JStr "object");
         ("properties", JDict
          [("pr_number", JDict
            [("type", JStr "integer");
             ("description", JStr "Pull request number to retrieve")])]);
         ("required", JList [JStr "pr_number"]);
         ("additionalProperties", JBool false)] |};
  {| tool_name := "list_branches";
     description := "List branches in a GitHub repository";
     inputSchema :=
       JDict
        [("type", JStr "object");
         ("properties", JDict
          [("protected", JDict
            [("type", JStr "boolean");
             ("description", JStr "Filter by protection status")]);
           ("per_page", JDict
            [("type", JStr "integer");
             ("description", JStr "Number of branches per page (max 100)");
             ("default", JInt 30);
             ("minimum", JInt 1);
             ("maximum", JInt 100)])]);
         ("additionalProperties", JBool false)] |};
  {| tool_name := "get_commits";
     description := "List commits in a GitHub repository";
     inputSchema :=
       JDict
        [("type", JStr "object");
         ("properties", JDict
          [("sha", JDict
            [("type", JStr "string");
             ("description", JStr "Branch or commit SHA to start from")]);
           ("path", JDict
            [("type", JStr "string");
             ("description", JStr "Filter commits by file path")]);
           ("author", JDict
            [("type", JStr "string");
             ("description", JStr "Filter by commit author")]);
           ("since", JDict
            [("type", JStr "string");
             ("description", JStr "ISO 8601 date - only commits after this date")]);
           ("until", JDict
            [("type", JStr "string");
             ("description", JStr "ISO 8601 date - only commits before this date")]);
           ("per_page", JDict
            [("type", JStr "integer");
             ("description", JStr "Number of commits per page (max 100)");
             ("default", JInt 30);
             ("minimum", JInt 1);
             ("maximum", JInt 100)])]);
         ("additionalProperties", JBool false)] |};
  {| tool_name := "get_file_content";
     description := "Get content of a file from the repository";
     inputSchema :=
       JDict
        [("type", JStr "object");
         ("properties", JDict
          [("path", JDict
            [("type", JStr "string");
             ("description", JStr "File path in the repository")]);
           ("ref", JDict
            [("type", JStr "string");
             ("description", JStr "Branch, tag, or commit SHA (default: default branch)")])]);
         ("required", JList [JStr "path"]);
         ("additionalProperties", JBool false)] |};
  {| tool_name := "search_code";
     description := "Search for code in the repository";
     inputSchema :=
       JDict
        [("type", JStr "object");
         ("properties", JDict
          [("query", JDict
            [("type", JStr "string");
             ("description", JStr "Search query")]);
           ("filename", JDict
            [("type", JStr "string");
             ("description", JStr "Filter by filename")]);
           ("extension", JDict
            [("type", JStr "string");
             ("description", JStr "Filter by file extension")]);
           ("path", JDict
            [("type", JStr "string");
             ("description", JStr "Filter by path")])]);
         ("required", JList [JStr "query"]);
         ("additionalProperties", JBool false)] |};
  {| tool_name := "add_issue_comment";
     description := "Add a comment to an issue";
     inputSchema :=
       JDict
        [("type", JStr "object");
         ("properties", JDict
          [("issue_number", JDict
            [("type", JStr "integer");
             ("description", JStr "Issue number to comment on")]);
           ("body", JDict
            [("type", JStr "string");
             ("description", JStr "Comment body")])]);
         ("required", JList [JStr "issue_number"; JStr "body"]);
         ("additionalProperties", JBool false)] |};
  {| tool_name := "get_repository_languages";
     description := "Get programming languages used in the repository";
     inputSchema :=
       JDict
        [("type", JStr "object");
         ("properties", JDict []);
         ("additionalProperties", JBool false)] |};
  {| tool_name := "get_repository_topics";
     description := "Get topics/tags associated with the repository";
     inputSchema :=
       JDict
        [("type", JStr "object");
         ("properties", JDict []);
         ("additionalProperties", JBool false)] |}
  ].

(** ** Vocabulary of the statements *)

(** The keys the schema of a tool requires, and those it declares. *)
Definition required_keys (t : Tool) : list string :=
  match inputSchema t with
  | JDict schema =>
      match lookup "required" schema with
      | Some (JList l) =>
          flat_map (fun v => match v with JStr k => [k] | _ => [] end) l
      | _ => []
      end
  | _ => []
  end.

Definition declared_keys (t : Tool) : list string :=
  match inputSchema t with
  | JDict schema =>
      match lookup "properties" schema with
      | Some (JDict props) => keys props
      | _ => []
      end
  | _ => []
  end.


(** A path segment the three URL forms carry unchanged: no ['/'], no
    [':'] and no ['.git'] inside. *)
Definition plain_segment (s : string) : bool :=
  negb (has_char "/" s) && negb (has_char ":" s) && negb (contains ".git" s).

Definition url_prefixes : list string :=
  ["https://github.com/"; "git@github.com:"; "git://github.com/"].

(** The owner and repository an invocation works on. *)
Definition owner_of (github : Config) (arguments : dict) : json :=
  dget arguments "owner" (of_opt (repo_owner github)).
Definition repo_of (github : Config) (arguments : dict) : json :=
  dget arguments "repo" (of_opt (repo_name github)).

(** The three checks before the dispatch all pass. *)
Definition ready (github : Config) (arguments : dict) : bool :=
  truthy (owner_of github arguments) && truthy (repo_of github arguments)
  && (truthy_opt (pat github) || app_configured github).

Fixpoint field (k : string) (fs : list (string * result json))
  : option (result json) :=
  match fs with
  | [] => None
  | (k', r) :: rest => if (k =? k')%string then Some r else field k rest
  end.

(** A value that [min] can compare with 100. *)
Definition is_number (v : json) : bool :=
  match v with
  | JInt _ | JBool _ => true
  | _ => false
  end.

(** An item that stands for a pull request. *)
Definition carries_pull_request (item : json) : bool :=
  match item with
  | JDict d => existsb (String.eqb "pull_request") (keys d)
  | _ => false
  end.

Definition is_object (v : json) : bool :=
  match v with
  | JDict _ => true
  | _ => false
  end.

Definition has_key (k : string) (d : dict) : bool :=
  match lookup k d with
  | Some _ => true
  | None => false
  end.

Definition issue_fields : list string :=
  ["number"; "title"; "state"; "html_url"; "user"; "labels"; "created_at";
   "updated_at"; "comments"; "body"].

(** An issue as the upstream sends it: the scalar fields, a [user] with
    a [login], [labels] with a [name] each, and a [body] that is a
    string, null or absent. *)
Definition issue_shape (item : json) : bool :=
  match item with
  | JDict d =>
      forallb (fun k => has_key k d)
              ["number"; "title"; "state"; "html_url"; "created_at";
               "updated_at"; "comments"]
      && match lookup "user" d with
         | Some (JDict u) => has_key "login" u
         | _ => false
         end
      && match lookup "labels" d with
         | Some (JList ls) =>
             forallb (fun l => match l with
                               | JDict ld => has_key "name" ld
                               | _ => false
                               end) ls
         | _ => false
         end
      && match lookup "body" d with
         | None | Some JNull | Some (JStr _) => true
         | _ => false
         end
  | _ => false
  end.



(** ** Fixtures *)

Module Fixtures.

Definition pat_config : Config :=
  {| repo_owner := Some "o"; repo_name := Some "r";
     pat := Some "ghp_example";
     app_id := Some "12"; installation_id := None; private_key_path := None;
     api_base := "https://api.github.com" |}.

Definition app_config : Config :=
  {| repo_owner := Some "o"; repo_name := Some "r";
     pat := None;
     app_id := Some "12"; installation_id := Some "34";
     private_key_path := Some "app.pem";
     api_base := "https://api.github.com" |}.

Definition st0 : State := {| now := 0; sent := [] |}.

Definition answer (status : Z) (b : json) : Response :=
  {| status_code := status; reason := ""; resp_url := ""; body := Some b;
     decode_error := "" |}.

(** An upstream that gives the same answer to everything. *)
Definition env_const (r : Response) : Env :=
  {| respond := fun _ _ => Responded r;
     load_private_key := fun _ => Ok "PEM";
     jwt_encode := fun _ _ => Ok "assertion";
     b64decode_utf8 := fun s => Decoded s |}.

(** An upstream that issues a new installation token, valid for one
    hour, at each exchange. *)
Definition token_env : Env :=
  {| respond := fun hist _ =>
       Responded (answer 201
                    (JDict [("token", JStr (match hist with
                                            | [] => "t1"
                                            | _ => "t2"
                                            end));
                            ("expires_at", JStr "1970-01-01T01:00:00Z")]));
     load_private_key := fun _ => Ok "PEM";
     jwt_encode := fun _ _ => Ok "assertion";
     b64decode_utf8 := fun s => Decoded s |}.

(** The body of the issue-creation scenario: four fields, no title. *)
Definition created_body : json :=
  JDict [("number", JInt 7); ("html_url", JStr "https://github.com/o/r/issues/7");
         ("state", JStr "open"); ("created_at", JStr "t")].

(** An issue as the upstream lists it, with extra keys and a body. *)
Definition sample_issue (n : Z) (extra : dict) (body_text : json) : json :=
  JDict ([("number", JInt n); ("title", JStr "t"); ("state", JStr "open");
          ("html_url", JStr "u"); ("user", JDict [("login", JStr "alice")]);
          ("labels", JList [JDict [("name", JStr "bug")]]);
          ("created_at", JStr "c"); ("updated_at", JStr "d");
          ("comments", JInt 0); ("body", body_text)] ++ extra)%list.

(** Two issues with a pull request between them. *)
Definition three_items : list json :=
  [sample_issue 1 [] (JStr "x");
   sample_issue 2 [("pull_request", JDict [])] JNull;
   sample_issue 3 [] JNull].

(** A string of [n] times the character [c]. *)
Fixpoint repeat_char (c : ascii) (n : nat) : string :=
  match n with
  | O => EmptyString
  | S k => String c (repeat_char c k)
  end.


End Fixtures.
Import Fixtures.

(** ** Further vocabulary and fixtures *)

(** What a request is on the wire: its method, its URL, its query
    parameters and its JSON body. *)
Definition is_call (rq : Request) (method url : string)
  (params : option dict) (body : option json) : Prop :=
  rq_method rq = method /\ rq_url rq = url
  /\ rq_params rq = params /\ rq_json rq = body.

(** [head] is the first [n] characters of [s]. *)
Definition first_chars (n : nat) (s head : string) : Prop :=
  String.length head = n /\ exists tail, s = head ++ tail.


(** The fields of an issue that are copied as they are. *)
Definition scalar_fields : list string :=
  ["number"; "title"; "state"; "html_url"; "created_at"; "updated_at";
   "comments"].

(** [names] are the names of the labels [ls], in order. *)
Definition label_names (ls names : list json) : Prop :=
  Forall2 (fun l n => exists ld, l = JDict ld /\ lookup "name" ld = Some n)
          ls names.

(** The body [v] shown for an item whose body is [b]: the empty string
    for none, a string of at most 200 characters as it is, the first 200
    characters and three dots of a longer one, and null as null. *)
Definition shown_body (b : option json) (v : json) : Prop :=
  match b with
  | None => v = JStr ""
  | Some (JStr s) =>
      if (String.length s <=? 200)%nat then v = JStr s
      else exists head, first_chars 200 s head /\ v = JStr (head ++ "...")
  | Some other => v = other
  end.

(** The entry of an issue, in the words of the listing: the seven
    scalar fields with the item's values, the login of its user, the
    names of its labels, and its body as shown. *)
Definition issue_projection (item entry : json) : Prop :=
  exists it d,
    item = JDict it /\ entry = JDict d
    /\ keys d = issue_fields
    /\ Forall (fun k => exists v, lookup k it = Some v /\ lookup k d = Some v)
              scalar_fields
    /\ (exists u login,
           lookup "user" it = Some (JDict u)
           /\ lookup "login" u = Some login
           /\ lookup "user" d = Some login)
    /\ (exists ls names,
           lookup "labels" it = Some (JList ls)
           /\ label_names ls names
           /\ lookup "labels" d = Some (JList names))
    /\ (exists v, lookup "body" d = Some v
                  /\ shown_body (lookup "body" it) v).

(** The configuration [github] with other default owner and repository. *)
Definition with_defaults (github : Config) (owner repo : option string)
  : Config :=
  {| repo_owner := owner; repo_name := repo;
     pat := pat github; app_id := app_id github;
     installation_id := installation_id github;
     private_key_path := private_key_path github;
     api_base := api_base github |}.

(** A computation that raises from every state. *)
Definition fails {A} (m : M A) : Prop :=
  forall st, exists e, fst (m st) = Raise e.

(** An upstream that never answers. *)
Definition unreachable (env : Env) : Prop :=
  forall hist rq r, respond env hist rq <> Responded r.

(** The [n]-th advertised tool. *)
Definition tool_at (n : nat) : Tool :=
  nth n handle_list_tools
      {| tool_name := ""; description := ""; inputSchema := JNull |}.

(** The tools that read a required argument first, with that argument. *)
Definition first_argument : list (string * string) :=
  [("update_issue", "issue_number"); ("get_issue", "issue_number");
   ("get_pull_request", "pr_number"); ("get_file_content", "path");
   ("search_code", "query"); ("add_issue_comment", "issue_number")].

(** The default branch [create_pull_request] reads off the repository:
    the [default_branch] of a 200 answer, otherwise [main]. *)
Definition default_branch_of (r : Response) : json :=
  if (status_code r =? 200)%Z then
    match body r with
    | Some (JDict info) => dget info "default_branch" (JStr "main")
    | _ => JStr "main"
    end
  else JStr "main".




(** The text one optional filter adds to a search query. *)
Definition filter_text (params : dict) (k : string) : string :=
  if truthy (dget params k JNull)
  then " " ++ k ++ ":" ++ py_str (dget params k JNull)
  else "".



(** The process [p] with another git remote and another file system. *)
Definition with_surroundings (p : Process) (git : git_run)
  (files : string -> option string) : Process :=
  {| getenv := getenv p; git_remote := git; read_file := files |}.

Definition env_vars (k : string) : option string :=
  if (k =? "GITHUB_OWNER")%string then Some "o"
  else if (k =? "GITHUB_REPO")%string then Some "r"
  else if (k =? "GITHUB_PAT")%string then Some "ghp_example"
  else if (k =? "GITHUB_PAT_FILE")%string then Some "~/.pat"
  else None.

Definition newline : string := String (ascii_of_nat 10) "".


(** A request as the gateway issues them: it accepts the v3 media type,
    has the dispatcher's or the exchange's timeout, and goes to the
    configured API. *)
Definition gateway_request (github : Config) (rq : Request) : Prop :=
  header_get "Accept" (rq_headers rq) = Some accept_v3
  /\ (rq_timeout rq = 30%Z \/ rq_timeout rq = 10%Z)
  /\ startswith (api_base github) (rq_url rq) = true.

(** A computation that only adds such requests to the log. *)
Definition keeps {A} (github : Config) (m : M A) : Prop :=
  forall st,
    Forall (gateway_request github) (sent st) ->
    Forall (gateway_request github) (sent (snd (m st))).

(** * Properties *)

(** ** Strings *)

Section StringFacts.

Lemma append_empty_r (s : string) : s ++ "" = s.
Proof. induction s as [|c s IH]; simpl; [reflexivity | now rewrite IH]. Qed.

Lemma append_assoc (a b c : string) : (a ++ b) ++ c = a ++ (b ++ c).
Proof. induction a as [|x a IH]; simpl; [reflexivity | now rewrite IH]. Qed.

Lemma startswith_app (p s : string) : startswith p (p ++ s) = true.
Proof.
  induction p as [|a p IH]; simpl; [reflexivity|].
  now rewrite Ascii.eqb_refl, IH.
Qed.

(** A match is made of characters of the text. *)
Lemma startswith_has_char (c : ascii) (p s : string) :
  startswith p s = true -> has_char c p = true -> has_char c s = true.
Proof.
  revert s; induction p as [|a p IH]; intros s Hp Hc; simpl in *.
  - discriminate.
  - destruct s as [|b s]; [discriminate|].
    apply andb_true_iff in Hp as [Hab Hp].
    apply Ascii.eqb_eq in Hab; subst b. simpl.
    apply orb_true_iff in Hc as [Hc | Hc].
    + now rewrite Hc.
    + rewrite (IH s Hp Hc). apply orb_true_r.
Qed.

Lemma contains_has_char (c : ascii) (p s : string) :
  contains p s = true -> has_char c p = true -> has_char c s = true.
Proof.
  intros Hp Hc; induction s as [|b s IH]; simpl in Hp.
  - rewrite orb_false_r in Hp. exact (startswith_has_char c p "" Hp Hc).
  - apply orb_true_iff in Hp as [Hp | Hp].
    + exact (startswith_has_char c p _ Hp Hc).
    + simpl. rewrite (IH Hp). apply orb_true_r.
Qed.

Lemma has_char_app (c : ascii) (a b : string) :
  has_char c (a ++ b) = has_char c a || has_char c b.
Proof.
  induction a as [|x a IH]; simpl; [reflexivity|].
  now rewrite IH, orb_assoc.
Qed.

(** A pattern without the character [c] cannot match across a [c]. *)
Lemma startswith_cut (c : ascii) (p a b : string) :
  has_char c p = false ->
  startswith p (a ++ String c b) = startswith p a.
Proof.
  revert a; induction p as [|q p IH]; intros a Hc; simpl in *; [reflexivity|].
  apply orb_false_iff in Hc as [Hq Hc].
  destruct a as [|x a]; simpl.
  - rewrite Ascii.eqb_sym, Hq. reflexivity.
  - now rewrite IH.
Qed.

Lemma contains_cut (c : ascii) (p a b : string) :
  has_char c p = false -> p <> "" ->
  contains p (a ++ String c b) = contains p a || contains p b.
Proof.
  intros Hc Hne. induction a as [|x a IH].
  - pose proof (startswith_cut c p "" b Hc) as E.
    destruct p as [|q p]; [contradiction|].
    simpl in *. now rewrite E.
  - change (contains p (String x a ++ String c b))
      with (startswith p (String x a ++ String c b)
            || contains p (a ++ String c b)).
    rewrite (startswith_cut c p (String x a) b Hc), IH.
    simpl. now rewrite orb_assoc.
Qed.

(** Dropping the rest of a match. *)
Lemma replace_from_skip (old new l s : string) :
  replace_from (String.length l) old new (l ++ s) = replace_from 0 old new s.
Proof. induction l as [|x l IH]; simpl; [reflexivity | exact IH]. Qed.

Lemma replace_from_match (a : ascii) (old new s : string) :
  replace_from 0 (String a old) new (String a old ++ s)
  = new ++ replace_from 0 (String a old) new s.
Proof.
  change (String a old ++ s) with (String a (old ++ s)).
  cbn [replace_from].
  change (String a (old ++ s)) with (String a old ++ s).
  rewrite startswith_app. cbn [String.length].
  rewrite Nat.sub_succ, Nat.sub_0_r, replace_from_skip. reflexivity.
Qed.

Lemma replace_from_absent (old new s : string) :
  contains old s = false -> replace_from 0 old new s = s.
Proof.
  induction s as [|c s IH]; intros H; [reflexivity|].
  simpl in H. apply orb_false_iff in H as [H1 H2].
  cbn [replace_from]. rewrite H1, (IH H2). reflexivity.
Qed.

Lemma split_no_sep (sep : ascii) (s : string) :
  has_char sep s = false -> split sep s = [s].
Proof.
  induction s as [|c s IH]; intros H; [reflexivity|].
  simpl in H. apply orb_false_iff in H as [H1 H2].
  simpl. rewrite (IH H2), Ascii.eqb_sym, H1. reflexivity.
Qed.

Lemma split_at_sep (sep : ascii) (a b : string) :
  has_char sep a = false ->
  split sep (a ++ String sep b) = a :: split sep b.
Proof.
  induction a as [|c a IH]; intros H.
  - simpl. rewrite Ascii.eqb_refl.
    destruct (split sep b) eqn:E; [|reflexivity].
    exfalso. clear -E. destruct b; simpl in E; [discriminate|].
    destruct (split sep b); [discriminate|].
    destruct (Ascii.eqb a sep); discriminate.
  - simpl in H. apply orb_false_iff in H as [H1 H2].
    simpl. rewrite (IH H2), Ascii.eqb_sym, H1. reflexivity.
Qed.

End StringFacts.

(** ** Repository detection *)

(** ['.git'] has no border: a match in [s ++ ".git"] that starts inside
    [s] lies inside [s]. *)
Lemma git_no_overlap (s : string) :
  s <> "" -> startswith ".git" s = false ->
  startswith ".git" (s ++ ".git") = false.
Proof.
  intros Hne H.
  destruct s as [|c1 [|c2 [|c3 [|c4 s]]]]; simpl in *;
    try congruence;
    repeat match goal with
           | |- context [Ascii.eqb ?a ?b] =>
               is_var b; destruct (Ascii.eqb a b)
           end; simpl in *; congruence.
Qed.

Lemma replace_git_suffix (s : string) :
  contains ".git" s = false ->
  replace_from 0 ".git" "" (s ++ ".git") = s.
Proof.
  induction s as [|c s IH]; intros H; [reflexivity|].
  pose proof H as H'. simpl in H'.
  apply orb_false_iff in H' as [H1 H2].
  change (String c s ++ ".git") with (String c (s ++ ".git")).
  cbn [replace_from].
  change (String c (s ++ ".git")) with (String c s ++ ".git").
  rewrite (git_no_overlap (String c s)); [|discriminate|exact H1].
  now rewrite (IH H2).
Qed.

Lemma plain_segment_inv (s : string) :
  plain_segment s = true ->
  has_char "/" s = false /\ has_char ":" s = false
  /\ contains ".git" s = false.
Proof.
  unfold plain_segment. intros H.
  apply andb_true_iff in H as [H H3]. apply andb_true_iff in H as [H1 H2].
  repeat split; now apply negb_true_iff.
Qed.

(** The path [owner/repo], with or without [.git], loses exactly the
    suffix and splits into the two names. *)
Lemma path_parts (owner repo suffix : string) :
  plain_segment owner = true -> plain_segment repo = true ->
  suffix = "" \/ suffix = ".git" ->
  split "/" (replace ".git" "" (owner ++ "/" ++ repo ++ suffix))
  = [owner; repo].
Proof.
  intros Ho Hr Hs.
  apply plain_segment_inv in Ho as (Ho1 & _ & Ho3).
  apply plain_segment_inv in Hr as (Hr1 & _ & Hr3).
  assert (Hc : contains ".git" (owner ++ "/" ++ repo) = false).
  { change (owner ++ "/" ++ repo) with (owner ++ String "/" repo).
    rewrite (contains_cut "/" ".git" owner repo eq_refl); [|discriminate].
    now rewrite Ho3, Hr3. }
  assert (E : replace ".git" "" (owner ++ "/" ++ repo ++ suffix)
              = owner ++ "/" ++ repo).
  { unfold replace. destruct Hs as [-> | ->].
    - rewrite append_empty_r. now apply replace_from_absent.
    - replace (owner ++ "/" ++ repo ++ ".git")
        with ((owner ++ "/" ++ repo) ++ ".git")
        by now rewrite !append_assoc.
      now apply replace_git_suffix. }
  rewrite E.
  change (owner ++ "/" ++ repo) with (owner ++ String "/" repo).
  rewrite (split_at_sep "/" owner repo Ho1), (split_no_sep "/" repo Hr1).
  reflexivity.
Qed.

(** Removing a URL prefix that holds a [':'] from in front of a path
    without one leaves the path. *)
Lemma strip_prefix (a : ascii) (p rest : string) :
  has_char ":" (String a p) = true -> has_char ":" rest = false ->
  replace (String a p) "" (String a p ++ rest) = rest.
Proof.
  intros Hp Hr. unfold replace.
  rewrite replace_from_match. simpl append at 1.
  apply replace_from_absent.
  destruct (contains (String a p) rest) eqn:E; [|reflexivity].
  rewrite (contains_has_char ":" _ _ E Hp) in Hr. discriminate.
Qed.

Lemma path_no_colon (owner repo suffix : string) :
  plain_segment owner = true -> plain_segment repo = true ->
  suffix = "" \/ suffix = ".git" ->
  has_char ":" (owner ++ "/" ++ repo ++ suffix) = false.
Proof.
  intros Ho Hr Hs.
  apply plain_segment_inv in Ho as (_ & Ho2 & _).
  apply plain_segment_inv in Hr as (_ & Hr2 & _).
  rewrite !has_char_app, Ho2, Hr2. destruct Hs as [-> | ->]; reflexivity.
Qed.

Lemma parse_form (prefix owner repo suffix : string) :
  In prefix url_prefixes ->
  plain_segment owner = true -> plain_segment repo = true ->
  suffix = "" \/ suffix = ".git" ->
  parse_remote_url (prefix ++ owner ++ "/" ++ repo ++ suffix)
  = Some (owner, repo).
Proof.
  intros Hp Ho Hr Hs.
  pose proof (path_parts owner repo suffix Ho Hr Hs) as Hparts.
  pose proof (path_no_colon owner repo suffix Ho Hr Hs) as Hcolon.
  set (rest := owner ++ "/" ++ repo ++ suffix) in *.
  destruct Hp as [<- | [<- | [<- | []]]]; unfold parse_remote_url.
  - replace (contains "github.com" ("https://github.com/" ++ rest))
      with true by reflexivity.
    replace (startswith "https://" ("https://github.com/" ++ rest))
      with true by reflexivity.
    rewrite strip_prefix by (reflexivity || assumption).
    now rewrite Hparts.
  - replace (contains "github.com" ("git@github.com:" ++ rest))
      with true by reflexivity.
    replace (startswith "https://" ("git@github.com:" ++ rest))
      with false by reflexivity.
    replace (startswith "git@" ("git@github.com:" ++ rest))
      with true by reflexivity.
    rewrite strip_prefix by (reflexivity || assumption).
    now rewrite Hparts.
  - replace (contains "github.com" ("git://github.com/" ++ rest))
      with true by reflexivity.
    replace (startswith "https://" ("git://github.com/" ++ rest))
      with false by reflexivity.
    replace (startswith "git@" ("git://github.com/" ++ rest))
      with false by reflexivity.
    replace (startswith "git://" ("git://github.com/" ++ rest))
      with true by reflexivity.
    rewrite strip_prefix by (reflexivity || assumption).
    now rewrite Hparts.
Qed.

(** The three schemes exclude one another. *)
Lemma schemes_exclusive (url : string) :
  (startswith "https://" url = true ->
   startswith "git@" url = false /\ startswith "git://" url = false)
  /\ (startswith "git@" url = true -> startswith "git://" url = false).
Proof.
  split; intros H.
  - destruct url as [|c s]; [discriminate H|].
    cbn [startswith] in H. apply andb_true_iff in H as [H _].
    apply Ascii.eqb_eq in H. subst c. split; reflexivity.
  - destruct url as [|c1 [|c2 [|c3 [|c4 s]]]]; cbn [startswith] in H;
      repeat (apply andb_true_iff in H as [?E H]); try discriminate H.
    apply Ascii.eqb_eq in E, E0, E1, E2. subst. reflexivity.
Qed.

(** C4, as the code has it: for names without ['/'], [':'] and ['.git'],
    each of the three origin forms, with or without a trailing [.git],
    resolves to the same pair [(owner, repo)]; and a URL resolves
    exactly when it contains [github.com], starts with one of the three
    schemes, and what is left once the form's prefix and ['.git'] are
    removed has at least two ['/']-segments: the pair is then the first
    two of them, whatever follows them and whether or not they are
    empty.  Every other URL gives no resolution. *)
Theorem parse_remote_url_forms (owner repo : string) :
  plain_segment owner = true -> plain_segment repo = true ->
  (forall prefix suffix,
      In prefix url_prefixes -> In suffix [""; ".git"] ->
      parse_remote_url (prefix ++ owner ++ "/" ++ repo ++ suffix)
      = Some (owner, repo))
  /\ (forall url o r,
         parse_remote_url url = Some (o, r) <->
         contains "github.com" url = true
         /\ exists scheme prefix more,
             In (scheme, prefix) [("https://", "https://github.com/");
                                  ("git@", "git@github.com:");
                                  ("git://", "git://github.com/")]
             /\ startswith scheme url = true
             /\ split "/" (replace ".git" "" (replace prefix "" url))
                = o :: r :: more).
Proof.
  intros Ho Hr. split.
  - intros prefix suffix Hp Hs. apply parse_form; try assumption.
    destruct Hs as [<- | [<- | []]]; auto.
  - intros url o r. split.
    + intros H. unfold parse_remote_url in H.
      destruct (contains "github.com" url); [|discriminate].
      split; [reflexivity|].
      destruct (startswith "https://" url) eqn:E1.
      { exists "https://", "https://github.com/".
        destruct (split "/" _) as [|p0 [|p1 more]] in H |- *;
          try discriminate.
        injection H as <- <-. exists more. simpl; auto. }
      destruct (startswith "git@" url) eqn:E2.
      { exists "git@", "git@github.com:".
        destruct (split "/" _) as [|p0 [|p1 more]] in H |- *;
          try discriminate.
        injection H as <- <-. exists more. simpl; auto. }
      destruct (startswith "git://" url) eqn:E3; [|discriminate].
      exists "git://", "git://github.com/".
      destruct (split "/" _) as [|p0 [|p1 more]] in H |- *; try discriminate.
      injection H as <- <-. exists more. simpl; auto.
    + intros (Hc & scheme & prefix & more & Hin & Hst & Hsplit).
      destruct (schemes_exclusive url) as [X1 X2].
      unfold parse_remote_url. rewrite Hc.
      destruct Hin as [E | [E | [E | []]]]; injection E as <- <-.
      * now rewrite Hst, Hsplit.
      * destruct (startswith "https://" url) eqn:E1.
        { destruct (X1 eq_refl) as [X _]. congruence. }
        now rewrite Hst, Hsplit.
      * destruct (startswith "https://" url) eqn:E1.
        { destruct (X1 eq_refl) as [_ X]. congruence. }
        destruct (startswith "git@" url) eqn:E2.
        { specialize (X2 eq_refl). congruence. }
        now rewrite Hst, Hsplit.
Qed.

Lemma parse_remote_url_forms_witness :
  parse_remote_url ("git@github.com:" ++ "neovasky" ++ "/"
                    ++ "mcp-feather-code" ++ ".git")
  = Some ("neovasky", "mcp-feather-code").
Proof.
  apply (proj1 (parse_remote_url_forms "neovasky" "mcp-feather-code"
                  eq_refl eq_refl));
    simpl; auto.
Defined.

(** C4 as stated fails: a path of three segments resolves, and so does a
    URL on another host, with an empty second segment. *)
Lemma parse_remote_url_not_strict :
  parse_remote_url "https://github.com/a/b/c" = Some ("a", "b")
  /\ split "/" "a/b/c" = ["a"; "b"; "c"]
  /\ parse_remote_url "https://example.org/github.com" = Some ("https:", "").
Proof. repeat split; reflexivity. Qed.

(** ** Credentials *)

(** C5: with a PAT set, the headers carry [token <PAT>] whatever the App
    fields are, and nothing is sent: no exchange is attempted. *)
Theorem pat_takes_precedence
  (env : Env) (github : Config) (st : State) (p : string) :
  pat github = Some p -> p <> "" ->
  _get_headers env github st
  = ([("Accept", accept_v3);
      ("User-Agent", "feather-code-mcp/1.0.0");
      ("Authorization", "token " ++ p)], st).
Proof.
  intros Hp Hne. unfold _get_headers. rewrite Hp.
  destruct p as [|c p]; [contradiction|]. reflexivity.
Qed.

(** ** The router *)

Lemma existsb_eqb_In (name : string) (l : list string) :
  existsb (String.eqb name) l = true <-> In name l.
Proof.
  rewrite existsb_exists. split.
  - intros (x & Hx & E). apply String.eqb_eq in E. now subst.
  - intros H. exists name. split; [assumption | apply String.eqb_refl].
Qed.



(** C8: whatever the name, the arguments and the failure, the reply is
    one text item.  A failure gives a plain message: the unknown-tool,
    missing-repository or missing-credential text, or the text the two
    [except] branches make of what the handler raised (a domain error,
    an HTTP error, a transport failure); only a handler that returned
    gives the JSON text of its result. *)
Theorem handle_call_tool_total
  (env : Env) (github : Config) (name : string) (arguments : dict)
  (st : State) :
  exists t,
    fst (handle_call_tool env github name arguments st) = [text_content t]
    /\ match t with
       | JsonDumps p =>
           fst (dispatch env github name (owner_of github arguments)
                  (repo_of github arguments) arguments st) = Ok p
       | Plain s =>
           s = unknown_tool_text name \/ s = no_repository_text
           \/ s = no_auth_text
           \/ exists e,
               fst (dispatch env github name (owner_of github arguments)
                      (repo_of github arguments) arguments st) = Raise e
               /\ s = failure_text name e
       end.
Proof.
  unfold handle_call_tool.
  fold (owner_of github arguments). fold (repo_of github arguments).
  destruct (negb (existsb (String.eqb name) valid_tools));
    [eexists; split; [reflexivity | simpl; auto]|].
  destruct (negb (truthy _) || negb (truthy _));
    [eexists; split; [reflexivity | simpl; auto]|].
  destruct (negb (truthy_opt _) && negb _);
    [eexists; split; [reflexivity | simpl; auto]|].
  destruct (dispatch _ _ _ _ _ _ _) as [[result | e] st'];
    eexists; (split; [reflexivity | simpl; eauto 6]).
Qed.

(** ** The dispatcher *)

Lemma request_sends
  (env : Env) (github : Config) (method endpoint : string) (kwargs : Kwargs)
  (st : State) :
  kw_headers kwargs = None ->
  request env github method endpoint kwargs st
  = (let hs := _get_headers env github st in
     let rq := outbound github method endpoint kwargs (fst hs) in
     (transport (respond env (sent (snd hs)) rq),
      {| now := now (snd hs); sent := (sent (snd hs) ++ [rq])%list |})).
Proof.
  intros H. unfold request, send.
  destruct (_get_headers env github st) as [h st1]. now rewrite H.
Qed.

(** [_get_headers] sends nothing but the token exchange, and leaves the
    clock alone. *)
Lemma _get_headers_sent (env : Env) (github : Config) (st : State) :
  now (snd (_get_headers env github st)) = now st
  /\ (sent (snd (_get_headers env github st)) = sent st
      \/ exists assertion,
          sent (snd (_get_headers env github st))
          = (sent st ++ [exchange_request github assertion])%list).
Proof.
  unfold _get_headers.
  destruct (truthy_opt (pat github)); [simpl; auto|].
  destruct (app_configured github); [|simpl; auto].
  unfold _get_app_token.
  destruct (private_key_path github) as [path|]; [|simpl; auto].
  destruct (load_private_key env path) as [key|e]; [|simpl; auto].
  destruct (jwt_encode env _ key) as [assertion|e]; [|simpl; auto].
  unfold send.
  destruct (respond env (sent st) (exchange_request github assertion))
    as [r| | |m]; simpl.
  - destruct (status_code r =? 201)%Z;
      [destruct (rbind (json_of r) _)|]; simpl; eauto.
  - eauto.
  - eauto.
  - eauto.
Qed.

(** C1, as the code has it: with only the App credential, every call of
    [_get_headers] performs exactly one token exchange, whatever was
    obtained before and whatever the clock says; the header carries the
    token of that exchange when it is answered 201, and no
    [Authorization] is set when it is answered otherwise.  There is no
    cached token. *)
Theorem app_token_exchanged_per_call
  (env : Env) (github : Config) (st : State) (path key assertion : string) :
  truthy_opt (pat github) = false ->
  app_configured github = true ->
  private_key_path github = Some path ->
  load_private_key env path = Ok key ->
  jwt_encode env {| iat := now st; exp := (now st + 600)%Z;
                    iss := app_id github |} key = Ok assertion ->
  let rq := exchange_request github assertion in
  snd (_get_headers env github st)
  = {| now := now st; sent := (sent st ++ [rq])%list |}
  /\ (forall r d token,
         respond env (sent st) rq = Responded r ->
         status_code r = 201%Z -> body r = Some (JDict d) ->
         lookup "token" d = Some token ->
         fst (_get_headers env github st)
         = List.app default_headers
             [("Authorization", "token " ++ py_str token)])
  /\ (forall r,
         respond env (sent st) rq = Responded r ->
         status_code r <> 201%Z ->
         fst (_get_headers env github st) = default_headers).
Proof.
  intros Hpat Happ Hpath Hkey Hjwt rq.
  unfold _get_headers, _get_app_token, send.
  rewrite Hpat, Happ, Hpath, Hkey, Hjwt. fold rq.
  split; [|split].
  - destruct (respond env (sent st) rq) as [r| | |m]; simpl; try reflexivity.
    destruct (status_code r =? 201)%Z;
      [destruct (rbind (json_of r) _)|]; reflexivity.
  - intros r d token Hr Hs Hb Ht. rewrite Hr, Hs. simpl.
    unfold json_of. rewrite Hb. simpl. unfold dgetitem. rewrite Ht.
    reflexivity.
  - intros r Hr Hs. rewrite Hr.
    destruct (status_code r =? 201)%Z eqn:E; [|reflexivity].
    apply Z.eqb_eq in E. contradiction.
Qed.

Lemma app_token_exchanged_per_call_witness :
  snd (_get_headers token_env app_config {| now := 1; sent := [] |})
  = {| now := 1;
       sent := ([] ++ [exchange_request app_config "assertion"])%list |}.
Proof.
  exact (proj1 (app_token_exchanged_per_call
                  token_env app_config {| now := 1; sent := [] |}
                  "app.pem" "PEM" "assertion"
                  eq_refl eq_refl eq_refl eq_refl eq_refl)).
Defined.

(** C1 as stated fails: a second call one second after the first, long
    before the first token expires, exchanges again and presents another
    token. *)
Lemma app_token_not_reused :
  let first := _get_headers token_env app_config {| now := 0; sent := [] |} in
  let second := _get_headers token_env app_config
                  {| now := 1; sent := sent (snd first) |} in
  header_get "Authorization" (fst first) = Some "token t1"
  /\ header_get "Authorization" (fst second) = Some "token t2"
  /\ List.length (sent (snd first)) = 1%nat
  /\ List.length (sent (snd second)) = 2%nat.
Proof. repeat split; reflexivity. Qed.

(** C2, what the code does: a [headers] keyword makes [request] raise
    before anything is sent with it, so [get_repository_topics], the one
    handler that passes one, fails on every call. *)
Theorem get_repository_topics_always_fails
  (env : Env) (github : Config) (owner repo : json) (st : State) :
  fst (get_repository_topics env github owner repo st)
  = Raise (TypeError
             "requests.api.request() got multiple values for keyword argument 'headers'")
  /\ (forall method endpoint params body h timeout st1,
         request env github method endpoint
           {| kw_params := params; kw_json := body;
              kw_headers := Some h; kw_timeout := timeout |} st1
         = (Raise (TypeError
                     "requests.api.request() got multiple values for keyword argument 'headers'"),
            snd (_get_headers env github st1))).
Proof.
  split.
  - unfold get_repository_topics.
    destruct (_get_headers env github st) as [base st1].
    unfold bind, request, with_headers. simpl.
    destruct (_get_headers env github st1) as [h st2]. reflexivity.
  - intros. unfold request. simpl.
    destruct (_get_headers env github st1) as [h0 st2]. reflexivity.
Qed.

Example topics_reply :
  handle_call_tool (env_const (answer 200 (JDict [("names", JList [])])))
    pat_config "get_repository_topics" [] st0
  = ([text_content
        (Plain "Error executing tool 'get_repository_topics': requests.api.request() got multiple values for keyword argument 'headers'")],
     st0).
Proof. reflexivity. Qed.

(** ** Invocations that reach a handler *)

Lemma handle_call_tool_ready
  (env : Env) (github : Config) (name : string) (arguments : dict)
  (st : State) :
  In name valid_tools -> ready github arguments = true ->
  handle_call_tool env github name arguments st
  = match dispatch env github name (owner_of github arguments)
            (repo_of github arguments) arguments st with
    | (Ok result, st') => ([text_content (JsonDumps result)], st')
    | (Raise e, st') => ([text_content (Plain (failure_text name e))], st')
    end.
Proof.
  intros Hin Hready. unfold handle_call_tool.
  apply existsb_eqb_In in Hin. rewrite Hin.
  unfold ready in Hready.
  apply andb_true_iff in Hready as [Hready Hauth].
  apply andb_true_iff in Hready as [Ho Hr].
  fold (owner_of github arguments). fold (repo_of github arguments).
  rewrite Ho, Hr. simpl negb. simpl orb. cbv iota.
  rewrite <- negb_orb, Hauth. reflexivity.
Qed.

Lemma truthy_dget_lookup (d : dict) (k : string) :
  truthy (dget d k JNull) = true ->
  exists v, lookup k d = Some v /\ dget d k JNull = v.
Proof.
  unfold dget. destruct (lookup k d) as [v|]; [eauto | discriminate].
Qed.

(** C3, as the code has it: when the upstream answers the creation with
    201 and a body holding [number], [title], [html_url], [state] and
    [created_at], the reply is the JSON text of exactly these five
    fields and the confirmation message, six in all. *)
Theorem create_issue_envelope
  (env : Env) (github : Config) (arguments : dict) (st : State)
  (r : Response) (issue : dict)
  (number title html_url state created_at : json) :
  ready github arguments = true ->
  truthy (dget arguments "title" JNull) = true ->
  (forall hist rq,
      rq_url rq = api_base github
                  ++ repo_path (owner_of github arguments)
                               (repo_of github arguments) ++ "/issues" ->
      respond env hist rq = Responded r) ->
  status_code r = 201%Z -> body r = Some (JDict issue) ->
  lookup "number" issue = Some number ->
  lookup "title" issue = Some title ->
  lookup "html_url" issue = Some html_url ->
  lookup "state" issue = Some state ->
  lookup "created_at" issue = Some created_at ->
  fst (handle_call_tool env github "create_issue" arguments st)
  = [text_content
       (JsonDumps
          (Data (JDict [("number", number); ("title", title);
                        ("html_url", html_url); ("state", state);
                        ("created_at", created_at);
                        ("message", JStr "Issue created successfully")])))].
Proof.
  intros Hready Htitle Hup Hs Hb Hnum Htit Hurl Hst Hcr.
  rewrite handle_call_tool_ready by (simpl; auto 20 || assumption).
  change (dispatch env github "create_issue" (owner_of github arguments)
            (repo_of github arguments) arguments)
    with (data (create_issue env github (owner_of github arguments)
                  (repo_of github arguments) arguments)).
  unfold data, create_issue. rewrite Htitle. cbv beta iota delta [negb].
  destruct (truthy_dget_lookup _ _ Htitle) as (v & Hv & _).
  unfold bind at 1 2. unfold lift at 1, dgetitem. rewrite Hv.
  unfold bind. rewrite request_sends by reflexivity.
  cbv zeta. rewrite Hup by reflexivity.
  unfold transport, lift, ret, expect_status, json_of.
  rewrite Hs, Hb. cbn [Z.eqb Pos.eqb negb rbind].
  unfold build, build_fields, getitem, dgetitem.
  rewrite Hnum, Htit, Hurl, Hst, Hcr. reflexivity.
Qed.

Lemma create_issue_envelope_witness :
  fst (handle_call_tool
         (env_const (answer 201 (JDict [("number", JInt 7);
                                        ("title", JStr "Bug");
                                        ("html_url", JStr "u");
                                        ("state", JStr "open");
                                        ("created_at", JStr "t");
                                        ("id", JInt 99)])))
         pat_config "create_issue" [("title", JStr "Bug")] st0)
  = [text_content
       (JsonDumps
          (Data (JDict [("number", JInt 7); ("title", JStr "Bug");
                        ("html_url", JStr "u"); ("state", JStr "open");
                        ("created_at", JStr "t");
                        ("message", JStr "Issue created successfully")])))].
Proof.
  exact (create_issue_envelope
           (env_const (answer 201 (JDict [("number", JInt 7);
                                          ("title", JStr "Bug");
                                          ("html_url", JStr "u");
                                          ("state", JStr "open");
                                          ("created_at", JStr "t");
                                          ("id", JInt 99)])))
           pat_config [("title", JStr "Bug")] st0 _ _ _ _ _ _ _
           eq_refl eq_refl (fun _ _ _ => eq_refl)
           eq_refl eq_refl eq_refl eq_refl eq_refl eq_refl eq_refl).
Defined.

(** C3 as stated fails: on a 201 whose body has the four fields
    [number], [html_url], [state], [created_at] and no [title], the
    handler raises [KeyError] and the reply is an error text. *)
Lemma create_issue_four_fields_fail :
  fst (handle_call_tool (env_const (answer 201 created_body)) pat_config
         "create_issue" [("title", JStr "Bug")] st0)
  = [text_content (Plain "Error executing tool 'create_issue': 'title'")].
Proof. reflexivity. Qed.

(** C6: an invocation of [list_issues] with [per_page] above 100 sends
    one resource request, a GET of the issues endpoint, whose query
    parameters hold [per_page] = 100; whatever else was sent on the way
    (a token exchange) carries no query parameters. *)
Theorem list_issues_clamps_per_page
  (env : Env) (github : Config) (arguments : dict) (st : State) (n : Z) :
  ready github arguments = true ->
  lookup "per_page" arguments = Some (JInt n) -> (100 < n)%Z ->
  exists q prior rq,
    sent (snd (handle_call_tool env github "list_issues" arguments st))
    = (sent st ++ prior ++ [rq])%list
    /\ rq = outbound github "GET"
              (repo_path (owner_of github arguments) (repo_of github arguments)
               ++ "/issues")
              (with_params q) (fst (_get_headers env github st))
    /\ is_call rq "GET"
         (api_base github
          ++ repo_path (owner_of github arguments) (repo_of github arguments)
          ++ "/issues")
         (Some q) None
    /\ lookup "per_page" q = Some (JInt 100)
    /\ Forall (fun rq => rq_params rq = None) prior.
Proof.
  intros Hready Hpp Hn.
  rewrite handle_call_tool_ready by (simpl; auto 20 || assumption).
  change (dispatch env github "list_issues" (owner_of github arguments)
            (repo_of github arguments) arguments)
    with (data (list_issues env github (owner_of github arguments)
                  (repo_of github arguments) arguments)).
  unfold data, list_issues, list_issues_query, dget at 1.
  rewrite Hpp. unfold min_100.
  apply Z.ltb_lt in Hn. rewrite Hn. cbn [rbind].
  set (q := copy_if_truthy arguments "labels" _).
  assert (Hq : lookup "per_page" q = Some (JInt 100)).
  { unfold q, copy_if_truthy.
    destruct (truthy (dget arguments "labels" JNull)); reflexivity. }
  unfold bind at 1 2 3. unfold lift at 1.
  rewrite request_sends by reflexivity. cbv zeta.
  destruct (_get_headers_sent env github st) as [_ Hsent].
  set (hs := _get_headers env github st) in *.
  set (rq := outbound github "GET" _ (with_params q) (fst hs)).
  assert (Hsnd : forall (x : list TextContent * State) s,
             snd x = s -> sent (snd x) = sent s) by (intros; now subst).
  exists q.
  exists (skipn (List.length (sent st)) (sent (snd hs))).
  exists rq.
  split; [|split; [reflexivity|split;
                   [unfold is_call; repeat split; reflexivity
                   |split; [exact Hq|]]]].
  - transitivity (sent (snd hs) ++ [rq])%list.
    + destruct (transport (respond env (sent (snd hs)) rq)) as [resp|e];
        unfold lift, ret;
        [destruct (rbind (expect_status 200 resp) _)|];
        try destruct e; reflexivity.
    + destruct Hsent as [E | [a E]]; rewrite E.
      * now rewrite skipn_all.
      * rewrite skipn_app, skipn_all, Nat.sub_diag. simpl.
        now rewrite <- app_assoc.
  - destruct Hsent as [E | [a E]]; rewrite E.
    + rewrite skipn_all. constructor.
    + rewrite skipn_app, skipn_all, Nat.sub_diag. simpl.
      repeat constructor.
Qed.

Lemma list_issues_clamps_per_page_witness :
  exists q prior rq,
    sent (snd (handle_call_tool (env_const (answer 200 (JList []))) pat_config
                 "list_issues" [("per_page", JInt 500)] st0))
    = (sent st0 ++ prior ++ [rq])%list
    /\ rq = outbound pat_config "GET"
              (repo_path (owner_of pat_config [("per_page", JInt 500)])
                         (repo_of pat_config [("per_page", JInt 500)])
               ++ "/issues")
              (with_params q)
              (fst (_get_headers (env_const (answer 200 (JList [])))
                      pat_config st0))
    /\ is_call rq "GET"
         (api_base pat_config
          ++ repo_path (owner_of pat_config [("per_page", JInt 500)])
                       (repo_of pat_config [("per_page", JInt 500)])
          ++ "/issues")
         (Some q) None
    /\ lookup "per_page" q = Some (JInt 100)
    /\ Forall (fun rq => rq_params rq = None) prior.
Proof.
  apply (list_issues_clamps_per_page
           (env_const (answer 200 (JList []))) pat_config
           [("per_page", JInt 500)] st0 500);
    [reflexivity | reflexivity | lia].
Defined.

Lemma pat_takes_precedence_witness :
  _get_headers token_env
    {| repo_owner := None; repo_name := None; pat := Some "ghp_example";
       app_id := Some "12"; installation_id := Some "34";
       private_key_path := Some "app.pem";
       api_base := "https://api.github.com" |} st0
  = ([("Accept", accept_v3);
      ("User-Agent", "feather-code-mcp/1.0.0");
      ("Authorization", "token " ++ "ghp_example")], st0).
Proof.
  apply pat_takes_precedence; [reflexivity | discriminate].
Defined.


(** ** Field projections *)

Lemma build_fields_keys (fs : list (string * result json)) (d : dict) :
  build_fields fs = Ok d -> keys d = map fst fs.
Proof.
  revert d; induction fs as [|[k r] fs IH]; intros d H; simpl in H.
  - now injection H as <-.
  - destruct r as [v|e]; [|discriminate]. simpl in H.
    destruct (build_fields fs) as [d'|e]; [|discriminate]. simpl in H.
    injection H as <-. simpl. now rewrite (IH d' eq_refl).
Qed.

(** A built dict holds, under each key, the value its display gives. *)
Lemma build_fields_lookup (fs : list (string * result json)) (d : dict)
  (k : string) :
  build_fields fs = Ok d ->
  match field k fs with
  | Some r => exists v, r = Ok v /\ lookup k d = Some v
  | None => lookup k d = None
  end.
Proof.
  revert d; induction fs as [|[k' r] fs IH]; intros d H; simpl in H.
  - now injection H as <-.
  - destruct r as [v|e]; [|discriminate]. simpl in H.
    destruct (build_fields fs) as [d'|e]; [|discriminate]. simpl in H.
    injection H as <-. simpl.
    destruct (k =? k')%string; [eauto | exact (IH d' eq_refl)].
Qed.

Lemma build_fields_total (fs : list (string * result json)) :
  Forall (fun kr => exists v, snd kr = Ok v) fs ->
  exists d, build_fields fs = Ok d.
Proof.
  induction 1 as [|[k r] fs [v Hv] _ [d Hd]]; simpl in *.
  - eauto.
  - subst r. rewrite Hd. simpl. eauto.
Qed.

(** What a built entry holds under [k]. *)
Lemma build_getitem (fs : list (string * result json)) (e : json)
  (k : string) (r : result json) :
  build fs = Ok e -> field k fs = Some r -> getitem e k = r.
Proof.
  unfold build. intros H Hf.
  destruct (build_fields fs) as [d|] eqn:E; simpl in H; [|discriminate].
  injection H as <-.
  pose proof (build_fields_lookup fs d k E) as L. rewrite Hf in L.
  destruct L as (v & -> & Hv). unfold getitem, dgetitem. now rewrite Hv.
Qed.

Lemma getitem_ok_lookup (d : dict) (k : string) (v : json) :
  getitem (JDict d) k = Ok v -> lookup k d = Some v.
Proof.
  unfold getitem, dgetitem. destruct (lookup k d); congruence.
Qed.

(** [take] cuts: it gives the first [n] characters. *)
Lemma take_first_chars (n : nat) (s : string) :
  (n <= String.length s)%nat -> first_chars n s (take n s).
Proof.
  revert s; induction n as [|n IH]; intros s H.
  - split; [reflexivity|]. exists s. reflexivity.
  - destruct s as [|c s]; [simpl in H; lia|].
    simpl in H. destruct (IH s) as [Hlen [tail Ht]]; [lia|].
    split; [simpl; now rewrite Hlen|].
    exists tail. simpl. now rewrite <- Ht.
Qed.



(** The body field of a long text: the first 200 characters and dots. *)
Lemma short_body_long (d : dict) (s : string) :
  lookup "body" d = Some (JStr s) -> (200 < String.length s)%nat ->
  short_body (JDict d) = Ok (JStr (take 200 s ++ "...")).
Proof.
  intros Hb Hlen. unfold short_body, get_attr, getitem, dgetitem, dget.
  rewrite Hb. simpl.
  destruct s as [|c s]; [simpl in Hlen; lia|]. simpl.
  apply Nat.ltb_lt in Hlen. simpl in Hlen. now rewrite Hlen.
Qed.


(** ** Listing issues *)

(** The value of [list_issues] once the upstream's answer is known. *)
Lemma list_issues_value
  (env : Env) (github : Config) (owner repo : json) (params : dict)
  (st : State) (r : Response) :
  (forall hist rq,
      rq_url rq = api_base github ++ repo_path owner repo ++ "/issues" ->
      respond env hist rq = Responded r) ->
  fst (list_issues env github owner repo params st)
  = (list_issues_query params ;;
     expect_status 200 r ;;
     issues <- json_of r ;;
     items <- py_iter issues ;;
     result <- issues_loop items ;;
     Ok (JList result))%py.
Proof.
  intros Hup. unfold list_issues, bind at 1, lift at 1.
  destruct (list_issues_query params) as [q|e]; [|reflexivity].
  unfold bind. rewrite request_sends by reflexivity. cbv zeta.
  rewrite Hup by reflexivity. reflexivity.
Qed.

Lemma has_key_getitem (k : string) (d : dict) :
  has_key k d = true -> exists v, getitem (JDict d) k = Ok v.
Proof.
  unfold has_key, getitem, dgetitem.
  destruct (lookup k d); [eauto | discriminate].
Qed.

Lemma pluck_names (ls : list json) :
  forallb (fun l => match l with
                    | JDict ld => has_key "name" ld
                    | _ => false
                    end) ls = true ->
  exists v, pluck "name" (JList ls) = Ok v.
Proof.
  intros H. unfold pluck. simpl.
  assert (exists names,
             map_result (fun x => getitem x "name") ls = Ok names)
    as [names E].
  { induction ls as [|l ls IH]; simpl in *; [eauto|].
    apply andb_true_iff in H as [Hl Hls].
    destruct l; try discriminate.
    destruct (has_key_getitem _ _ Hl) as [v Hv]. rewrite Hv. simpl.
    destruct (IH Hls) as [names E]. rewrite E. simpl. eauto. }
  rewrite E. simpl. eauto.
Qed.

Lemma short_body_total (d : dict) :
  match lookup "body" d with
  | None | Some JNull | Some (JStr _) => true
  | _ => false
  end = true ->
  exists v, short_body (JDict d) = Ok v.
Proof.
  unfold short_body, get_attr, getitem, dgetitem, dget.
  destruct (lookup "body" d) as [[| | |s| |]|]; intros H;
    try discriminate; simpl; eauto.
  destruct (negb (s =? "")%string); simpl; eauto.
  destruct (200 <? String.length s)%nat; eauto.
Qed.

(** A well-shaped issue projects, and onto the ten fields. *)
Lemma issue_entry_total (item : json) :
  issue_shape item = true ->
  exists d, issue_entry item = Ok (JDict d) /\ keys d = issue_fields.
Proof.
  destruct item as [| | | | |d]; try discriminate.
  unfold issue_shape. intros H.
  apply andb_true_iff in H as [H Hbody].
  apply andb_true_iff in H as [H Hlabels].
  apply andb_true_iff in H as [Hscalars Huser].
  cbn [forallb] in Hscalars.
  repeat (apply andb_true_iff in Hscalars as [?K Hscalars]).
  destruct (lookup "user" d) as [[| | | | |u]|] eqn:Eu; try discriminate.
  destruct (lookup "labels" d) as [[| | | |ls|]|] eqn:El; try discriminate.
  destruct (build_fields_total
              [("number", getitem (JDict d) "number");
               ("title", getitem (JDict d) "title");
               ("state", getitem (JDict d) "state");
               ("html_url", getitem (JDict d) "html_url");
               ("user", getitem2 (JDict d) "user" "login");
               ("labels", (ls <- getitem (JDict d) "labels" ;;
                           pluck "name" ls)%py);
               ("created_at", getitem (JDict d) "created_at");
               ("updated_at", getitem (JDict d) "updated_at");
               ("comments", getitem (JDict d) "comments");
               ("body", short_body (JDict d))]) as [out Hout].
  { repeat constructor; cbn [snd];
      try (apply has_key_getitem; assumption).
    - unfold getitem2, getitem, dgetitem. rewrite Eu. simpl.
      apply (has_key_getitem "login" u Huser).
    - unfold getitem at 1, dgetitem. rewrite El. simpl.
      apply pluck_names, Hlabels.
    - apply short_body_total, Hbody. }
  exists out. unfold issue_entry, build. rewrite Hout. split; [reflexivity|].
  apply (build_fields_keys _ _ Hout).
Qed.

Lemma pluck_label_names (ls : list json) (v : json) :
  pluck "name" (JList ls) = Ok v ->
  exists names, v = JList names /\ label_names ls names.
Proof.
  unfold pluck. simpl. intros H.
  destruct (map_result (fun x => getitem x "name") ls) as [names|] eqn:E;
    simpl in H; [|discriminate].
  injection H as <-. exists names. split; [reflexivity|].
  revert names E. induction ls as [|l ls IH]; intros names E; simpl in E.
  - injection E as <-. constructor.
  - destruct (getitem l "name") as [n|] eqn:En; simpl in E; [|discriminate].
    destruct (map_result _ ls) as [ns|]; simpl in E; [|discriminate].
    injection E as <-. constructor; [|now apply IH].
    destruct l as [| | | | |ld]; try discriminate.
    exists ld. split; [reflexivity | now apply getitem_ok_lookup].
Qed.

Lemma short_body_short (d : dict) (s : string) :
  lookup "body" d = Some (JStr s) -> (String.length s <= 200)%nat ->
  short_body (JDict d) = Ok (JStr s).
Proof.
  intros Hb Hlen. unfold short_body, get_attr, getitem, dgetitem, dget.
  rewrite Hb. simpl.
  destruct s as [|c s]; [reflexivity|]. simpl.
  apply Nat.ltb_ge in Hlen. simpl in Hlen. now rewrite Hlen.
Qed.

Lemma short_body_shown (d : dict) (v : json) :
  match lookup "body" d with
  | None | Some JNull | Some (JStr _) => true
  | _ => false
  end = true ->
  short_body (JDict d) = Ok v -> shown_body (lookup "body" d) v.
Proof.
  unfold shown_body.
  destruct (lookup "body" d) as [[| | |s| |]|] eqn:Eb; intros Hs H;
    try discriminate.
  - unfold short_body, get_attr, getitem, dgetitem, dget in H.
    rewrite Eb in H. simpl in H. congruence.
  - destruct (Nat.leb_spec (String.length s) 200) as [Hle | Hgt].
    + rewrite (short_body_short d s Eb Hle) in H. congruence.
    + rewrite (short_body_long d s Eb Hgt) in H. injection H as <-.
      exists (take 200 s). split; [|reflexivity].
      apply take_first_chars. lia.
  - unfold short_body, get_attr, getitem, dgetitem, dget in H.
    rewrite Eb in H. simpl in H. congruence.
Qed.

(** The entry of a well-shaped issue holds the item's own values. *)
Lemma issue_entry_projection (it : dict) (e : json) :
  issue_shape (JDict it) = true -> issue_entry (JDict it) = Ok e ->
  issue_projection (JDict it) e.
Proof.
  unfold issue_shape. intros H He.
  apply andb_true_iff in H as [H Hbody].
  apply andb_true_iff in H as [H Hlabels].
  apply andb_true_iff in H as [Hscalars Huser].
  destruct (lookup "user" it) as [[| | | | |u]|] eqn:Eu; try discriminate.
  destruct (lookup "labels" it) as [[| | | |ls|]|] eqn:El; try discriminate.
  assert (Hd : exists d, e = JDict d /\ keys d = issue_fields).
  { unfold issue_entry, build in He.
    destruct (build_fields _) as [d|] eqn:E; simpl in He; [|discriminate].
    injection He as <-. exists d. split; [reflexivity|].
    exact (build_fields_keys _ _ E). }
  destruct Hd as (d & -> & Hkeys).
  pose proof (fun k r => build_getitem _ (JDict d) k r He) as F.
  exists it, d. split; [reflexivity|]. split; [reflexivity|].
  split; [exact Hkeys|]. split; [|split; [|split]].
  - cbn [forallb] in Hscalars.
    repeat (apply andb_true_iff in Hscalars as [?K Hscalars]).
    unfold scalar_fields.
    repeat constructor;
      match goal with
      | |- exists v, lookup ?k it = Some v /\ _ =>
          let Hk := fresh in
          assert (Hk : has_key k it = true) by assumption;
          destruct (has_key_getitem _ _ Hk) as [v Hv];
          exists v; split; [now apply getitem_ok_lookup|];
          apply getitem_ok_lookup; rewrite (F k _ eq_refl); exact Hv
      end.
  - destruct (has_key_getitem _ _ Huser) as [login Hl].
    exists u, login. split; [exact Eu|].
    split; [now apply getitem_ok_lookup|].
    apply getitem_ok_lookup. rewrite (F "user" _ eq_refl).
    unfold getitem2, getitem at 1, dgetitem. rewrite Eu. exact Hl.
  - destruct (pluck_names ls Hlabels) as [v Hv].
    destruct (pluck_label_names ls v Hv) as (names & -> & Hn).
    exists ls, names. split; [exact El|]. split; [exact Hn|].
    apply getitem_ok_lookup. rewrite (F "labels" _ eq_refl).
    unfold getitem at 1, dgetitem. rewrite El. exact Hv.
  - destruct (short_body_total it Hbody) as [v Hv].
    exists v. split.
    + apply getitem_ok_lookup. rewrite (F "body" _ eq_refl). exact Hv.
    + now apply short_body_shown.
Qed.

Lemma issues_loop_objects (items : list json) :
  Forall (fun it => is_object it = true) items ->
  Forall (fun it => carries_pull_request it = false ->
                    issue_shape it = true) items ->
  exists out,
    issues_loop items = Ok out
    /\ Forall2 (fun it e => issue_entry it = Ok e
                            /\ (exists d, e = JDict d /\ keys d = issue_fields)
                            /\ issue_projection it e)
               (filter (fun it => negb (carries_pull_request it)) items) out.
Proof.
  induction items as [|it items IH]; intros Hobj Hshape.
  - exists []. split; [reflexivity | constructor].
  - inversion Hobj as [|? ? Ho Hobj']; subst.
    inversion Hshape as [|? ? Hs Hshape']; subst.
    destruct (IH Hobj' Hshape') as (out & Hloop & Hall).
    destruct it as [| | | | |d]; try discriminate.
    cbn [issues_loop py_in rbind filter carries_pull_request] in *.
    destruct (existsb (String.eqb "pull_request") (keys d)) eqn:E.
    + exists out. auto.
    + destruct (issue_entry_total (JDict d) (Hs eq_refl)) as (e & He & Hk).
      exists (JDict e :: out). rewrite He, Hloop. cbn [rbind negb].
      split; [reflexivity|]. constructor; [|exact Hall].
      split; [exact He|]. split; [eauto|].
      exact (issue_entry_projection d (JDict e) (Hs eq_refl) He).
Qed.

(** C9: on a 200 answer holding a list of objects, [list_issues] (called
    with no [per_page] or a number) returns one entry for each item
    without a [pull_request] key and for no other, in order; each entry
    has the ten issue fields and holds its item's values: the scalar
    fields as they are, the user's login, the names of the labels, and
    the body as shown. *)
Theorem list_issues_excludes_pull_requests
  (env : Env) (github : Config) (owner repo : json) (params : dict)
  (st : State) (r : Response) (items : list json) :
  is_number (dget params "per_page" (JInt 30)) = true ->
  (forall hist rq,
      rq_url rq = api_base github ++ repo_path owner repo ++ "/issues" ->
      respond env hist rq = Responded r) ->
  status_code r = 200%Z -> body r = Some (JList items) ->
  Forall (fun it => is_object it = true) items ->
  Forall (fun it => carries_pull_request it = false ->
                    issue_shape it = true) items ->
  exists out,
    fst (list_issues env github owner repo params st) = Ok (JList out)
    /\ Forall2 (fun it e => issue_entry it = Ok e
                            /\ (exists d, e = JDict d /\ keys d = issue_fields)
                            /\ issue_projection it e)
               (filter (fun it => negb (carries_pull_request it)) items) out.
Proof.
  intros Hq Hup Hs Hb Hobj Hshape.
  destruct (issues_loop_objects items Hobj Hshape) as (out & Hloop & Hall).
  exists out. split; [|exact Hall].
  rewrite (list_issues_value env github owner repo params st r Hup).
  assert (exists q, list_issues_query params = Ok q) as [q Hq'].
  { unfold list_issues_query, min_100.
    destruct (dget params "per_page" (JInt 30)); try discriminate;
      simpl; eauto. }
  unfold expect_status, json_of. rewrite Hq', Hs, Hb. simpl.
  rewrite Hloop. reflexivity.
Qed.

Lemma list_issues_excludes_pull_requests_witness :
  exists out,
    fst (list_issues (env_const (answer 200 (JList three_items)))
           pat_config (JStr "o") (JStr "r") [] st0) = Ok (JList out)
    /\ Forall2 (fun it e => issue_entry it = Ok e
                            /\ (exists d, e = JDict d /\ keys d = issue_fields)
                            /\ issue_projection it e)
               (filter (fun it => negb (carries_pull_request it)) three_items)
               out.
Proof.
  apply (list_issues_excludes_pull_requests
           (env_const (answer 200 (JList three_items)))
           pat_config (JStr "o") (JStr "r") [] st0
           (answer 200 (JList three_items)) three_items);
    try reflexivity.
  - repeat constructor.
  - repeat constructor.
Defined.

(** ** Truncation of long text *)










Example long_issue_body :
  fst (list_issues
         (env_const (answer 200
                       (JList [sample_issue 1 []
                                 (JStr (repeat_char "b" 201))])))
         pat_config (JStr "o") (JStr "r") [] st0)
  = Ok (JList [JDict [("number", JInt 1); ("title", JStr "t");
                      ("state", JStr "open"); ("html_url", JStr "u");
                      ("user", JStr "alice"); ("labels", JList [JStr "bug"]);
                      ("created_at", JStr "c"); ("updated_at", JStr "d");
                      ("comments", JInt 0);
                      ("body", JStr (repeat_char "b" 200 ++ "..."))]]).
Proof. vm_compute. reflexivity. Qed.

(** ** Runs *)

Example parse_https :
  parse_remote_url "https://github.com/neovasky/mcp-feather-code.git"
  = Some ("neovasky", "mcp-feather-code").
Proof. reflexivity. Qed.

Example detect_ssh :
  _detect_git_repo (Completed "git@github.com:neovasky/mcp-feather-code.git
") = Some ("neovasky", "mcp-feather-code").
Proof. reflexivity. Qed.

(** [.replace('.git', '')] also removes a ['.git'] inside a name. *)
Example parse_git_inside_name :
  parse_remote_url "https://github.com/o/site.github.io.git"
  = Some ("o", "sitehub.io").
Proof. reflexivity. Qed.

Example init_from_git :
  GitHubClient_init
    {| getenv := fun k => if (k =? "GITHUB_PAT")%string
                          then Some "ghp_example" else None;
       git_remote := Completed "https://github.com/o/r.git";
       read_file := fun _ => None |}
  = {| repo_owner := Some "o"; repo_name := Some "r";
       pat := Some "ghp_example";
       app_id := None; installation_id := None; private_key_path := None;
       api_base := "https://api.github.com" |}.
Proof. reflexivity. Qed.

Example issue_not_found :
  fst (handle_call_tool (env_const (answer 404 JNull)) pat_config
         "get_issue" [("issue_number", JInt 42)] st0)
  = [text_content
       (Plain "Error executing tool 'get_issue': Issue #42 not found")].
Proof. reflexivity. Qed.

Example missing_title :
  handle_call_tool (env_const (answer 201 created_body)) pat_config
    "create_issue" [] st0
  = ([text_content
        (Plain "Error executing tool 'create_issue': Issue title is required")],
     st0).
Proof. reflexivity. Qed.

(** * Further properties *)

(** ** The checks of the router *)

(** X1: nothing is sent before the three checks pass.  An invocation
    whose name is unknown, whose owner or repository is missing, or for
    which no credential is configured leaves the state as it was and
    answers with a plain text; a missing repository is reported before a
    missing credential. *)
Theorem nothing_sent_before_checks
  (env : Env) (github : Config) (name : string) (arguments : dict)
  (st : State) :
  ~ In name valid_tools \/ ready github arguments = false ->
  snd (handle_call_tool env github name arguments st) = st
  /\ fst (handle_call_tool env github name arguments st)
     = [text_content
          (Plain (if negb (existsb (String.eqb name) valid_tools)
                  then unknown_tool_text name
                  else if truthy (owner_of github arguments)
                          && truthy (repo_of github arguments)
                       then no_auth_text
                       else no_repository_text))].
Proof.
  intros H. unfold handle_call_tool.
  fold (owner_of github arguments). fold (repo_of github arguments).
  destruct (existsb (String.eqb name) valid_tools) eqn:E; simpl negb;
    cbv iota; [|split; reflexivity].
  destruct H as [H | H]; [apply existsb_eqb_In in E; contradiction|].
  unfold ready in H.
  destruct (truthy (owner_of github arguments));
    destruct (truthy (repo_of github arguments)); simpl in *;
    try (split; reflexivity).
  rewrite <- negb_orb, H. split; reflexivity.
Qed.

Lemma nothing_sent_before_checks_witness :
  snd (handle_call_tool token_env
         {| repo_owner := Some "o"; repo_name := Some "r"; pat := Some "";
            app_id := Some "12"; installation_id := None;
            private_key_path := Some "app.pem";
            api_base := "https://api.github.com" |}
         "list_issues" [] st0) = st0
  /\ fst (handle_call_tool token_env
            {| repo_owner := Some "o"; repo_name := Some "r"; pat := Some "";
               app_id := Some "12"; installation_id := None;
               private_key_path := Some "app.pem";
               api_base := "https://api.github.com" |}
            "list_issues" [] st0)
     = [text_content (Plain no_auth_text)].
Proof.
  apply (nothing_sent_before_checks token_env
           {| repo_owner := Some "o"; repo_name := Some "r"; pat := Some "";
              app_id := Some "12"; installation_id := None;
              private_key_path := Some "app.pem";
              api_base := "https://api.github.com" |}
           "list_issues" [] st0).
  right. reflexivity.
Defined.

(** X2: an owner and a repository given with the invocation replace the
    process-wide defaults: the reply and everything sent are the same
    whatever the defaults are, even when there are none. *)
Theorem arguments_override_defaults
  (env : Env) (github : Config) (name : string) (arguments : dict)
  (st : State) (o r : json) (owner' repo' : option string) :
  lookup "owner" arguments = Some o -> lookup "repo" arguments = Some r ->
  handle_call_tool env (with_defaults github owner' repo') name arguments st
  = handle_call_tool env github name arguments st.
Proof.
  intros Ho Hr. unfold handle_call_tool, dget. rewrite Ho, Hr. reflexivity.
Qed.

Lemma arguments_override_defaults_witness :
  handle_call_tool (env_const (answer 200 (JList [])))
    (with_defaults pat_config None None) "list_issues"
    [("owner", JStr "a"); ("repo", JStr "b")] st0
  = handle_call_tool (env_const (answer 200 (JList []))) pat_config
      "list_issues" [("owner", JStr "a"); ("repo", JStr "b")] st0.
Proof.
  apply (arguments_override_defaults (env_const (answer 200 (JList [])))
           pat_config "list_issues" [("owner", JStr "a"); ("repo", JStr "b")]
           st0 (JStr "a") (JStr "b") None None);
    reflexivity.
Defined.

(** ** Credentials, further *)

(** X3: in every configuration and whatever the exchange does, the
    headers are the two fixed ones, [Accept] and [User-Agent], followed
    by at most one [Authorization] of the form [token ...]. *)
Theorem headers_shape (env : Env) (github : Config) (st : State) :
  fst (_get_headers env github st) = default_headers
  \/ exists t,
      fst (_get_headers env github st)
      = List.app default_headers [("Authorization", "token " ++ t)].
Proof.
  unfold _get_headers.
  destruct (truthy_opt (pat github)); [right; eexists; reflexivity|].
  destruct (app_configured github); [|left; reflexivity].
  destruct (_get_app_token env github st) as [[token|e] st'];
    [right; eexists; reflexivity | left; reflexivity].
Qed.

(** X4: without a PAT, when the App credential is incomplete, or its
    key cannot be loaded, or the assertion cannot be signed, the headers
    are the two fixed ones and nothing is sent: the failure is swallowed
    and the call that follows goes out without credentials. *)
Theorem headers_without_credential
  (env : Env) (github : Config) (st : State) :
  truthy_opt (pat github) = false ->
  app_configured github = false
  \/ (exists path e,
         private_key_path github = Some path
         /\ load_private_key env path = Raise e)
  \/ (exists path key e,
         private_key_path github = Some path
         /\ load_private_key env path = Ok key
         /\ jwt_encode env {| iat := now st; exp := (now st + 600)%Z;
                              iss := app_id github |} key = Raise e) ->
  _get_headers env github st = (default_headers, st).
Proof.
  intros Hpat H. unfold _get_headers. rewrite Hpat.
  destruct (app_configured github); [|reflexivity].
  destruct H as [H | [(path & e & Hp & Hl) | (path & key & e & Hp & Hl & Hj)]].
  - discriminate.
  - unfold _get_app_token. now rewrite Hp, Hl.
  - unfold _get_app_token. now rewrite Hp, Hl, Hj.
Qed.

Lemma headers_without_credential_witness :
  _get_headers
    {| respond := fun _ _ => TimedOut;
       load_private_key := fun _ => Raise (OSError "No such file");
       jwt_encode := fun _ _ => Ok "assertion";
       b64decode_utf8 := fun s => Decoded s |}
    app_config st0
  = (default_headers, st0).
Proof.
  apply headers_without_credential; [reflexivity|].
  right. left. exists "app.pem", (OSError "No such file"). split; reflexivity.
Defined.

(** ** Transport failures *)

Lemma fails_bind {A B} (m : M A) (k : A -> M B) : fails m -> fails (bind m k).
Proof.
  intros H st. unfold bind. destruct (H st) as [e He].
  destruct (m st) as [[a|e'] st']; simpl in *; [discriminate | eauto].
Qed.

Lemma fails_after_lift {A B} (r : result A) (k : A -> M B) :
  (forall a, fails (k a)) -> fails (bind (lift r) k).
Proof.
  intros H st. unfold bind, lift. destruct r as [a|e]; [apply H | simpl; eauto].
Qed.

Lemma fails_raise {A} (e : exn) : fails (@raise A e).
Proof. intros st. unfold raise. simpl. eauto. Qed.

Lemma request_fails
  (env : Env) (github : Config) (method endpoint : string) (kwargs : Kwargs) :
  unreachable env -> fails (request env github method endpoint kwargs).
Proof.
  intros Hun st. unfold request, send.
  destruct (_get_headers env github st) as [h st1].
  destruct (kw_headers kwargs); [simpl; eauto|].
  destruct (respond env (sent st1) _) as [r| | |m] eqn:E; simpl; eauto.
  exfalso. exact (Hun _ _ _ E).
Qed.

Ltac fails_step :=
  first [ apply fails_raise
        | apply request_fails; assumption
        | apply fails_bind; apply request_fails; assumption
        | apply fails_after_lift; intros ? ].

Lemma dispatch_fails
  (env : Env) (github : Config) (name : string) (owner repo : json)
  (arguments : dict) :
  unreachable env -> fails (dispatch env github name owner repo arguments).
Proof.
  intros Hun. unfold dispatch, data.
  repeat match goal with
         | |- fails (if ?c then _ else _) => destruct c
         end;
    try apply fails_raise; try apply fails_bind.
  - unfold get_repository_info. repeat fails_step.
  - unfold list_issues. repeat fails_step.
  - unfold create_issue.
    destruct (negb (truthy (dget arguments "title" JNull)));
      repeat fails_step.
  - unfold get_pull_requests. repeat fails_step.
  - unfold update_issue. repeat fails_step.
  - unfold get_issue. repeat fails_step.
  - unfold create_pull_request. repeat fails_step.
  - unfold get_pull_request. repeat fails_step.
  - unfold list_branches. repeat fails_step.
  - unfold get_commits. repeat fails_step.
  - unfold get_file_content. repeat fails_step.
  - unfold search_code. repeat fails_step.
  - unfold add_issue_comment. repeat fails_step.
  - repeat fails_step.
  - intros st. unfold get_repository_topics.
    destruct (_get_headers env github st) as [base st1].
    apply (fails_bind _ _ (request_fails env github _ _ _ Hun)).
Qed.

(** X5: when the upstream cannot be reached, whatever the tool and the
    arguments, the reply is a plain error text; no invocation reports a
    result. *)
Theorem unreachable_upstream_is_reported
  (env : Env) (github : Config) (name : string) (arguments : dict)
  (st : State) :
  unreachable env ->
  exists s,
    fst (handle_call_tool env github name arguments st)
    = [text_content (Plain s)].
Proof.
  intros Hun. unfold handle_call_tool.
  destruct (negb (existsb (String.eqb name) valid_tools));
    [eexists; reflexivity|].
  destruct (negb (truthy _) || negb (truthy _)); [eexists; reflexivity|].
  destruct (negb (truthy_opt _) && negb _); [eexists; reflexivity|].
  destruct (dispatch_fails env github name
              (dget arguments "owner" (of_opt (repo_owner github)))
              (dget arguments "repo" (of_opt (repo_name github)))
              arguments Hun st) as [e He].
  destruct (dispatch _ _ _ _ _ _ _) as [[result|e'] st']; simpl in He;
    [discriminate|].
  eexists. reflexivity.
Qed.

Lemma unreachable_upstream_is_reported_witness :
  exists s,
    fst (handle_call_tool
           {| respond := fun _ _ => ConnectionFailed;
              load_private_key := fun _ => Ok "PEM";
              jwt_encode := fun _ _ => Ok "assertion";
              b64decode_utf8 := fun s => Decoded s |}
           app_config "search_code" [("query", JStr "main")] st0)
    = [text_content (Plain s)].
Proof.
  apply unreachable_upstream_is_reported.
  intros hist rq r. discriminate.
Defined.



(** ** The tool list and the router *)

Lemma fails_bind_any {A B} (m : M A) (k : A -> M B) :
  (forall a, fails (k a)) -> fails (bind m k).
Proof.
  intros H st. unfold bind.
  destruct (m st) as [[a|e] st']; [apply H | simpl; eauto].
Qed.

Lemma fails_lift_raise {A B} (e : exn) (k : A -> M B) :
  fails (bind (lift (Raise e)) k).
Proof. intros st. unfold bind, lift. simpl. eauto. Qed.

(** A handler that raises gives a plain reply. *)
Lemma plain_reply_of_fails
  (env : Env) (github : Config) (name : string) (arguments : dict)
  (st : State) :
  fails (dispatch env github name (owner_of github arguments)
           (repo_of github arguments) arguments) ->
  exists s,
    fst (handle_call_tool env github name arguments st)
    = [text_content (Plain s)].
Proof.
  intros Hf. unfold handle_call_tool.
  fold (owner_of github arguments). fold (repo_of github arguments).
  destruct (negb (existsb (String.eqb name) valid_tools));
    [eexists; reflexivity|].
  destruct (negb (truthy _) || negb (truthy _)); [eexists; reflexivity|].
  destruct (negb (truthy_opt _) && negb _); [eexists; reflexivity|].
  destruct (Hf st) as [e He].
  destruct (dispatch _ _ _ _ _ _ _) as [[result|e'] st']; simpl in He;
    [discriminate|].
  eexists. reflexivity.
Qed.

Ltac raises_on_missing H :=
  unfold dgetitem; rewrite ?H;
  repeat first [ apply fails_lift_raise
               | apply fails_raise
               | apply fails_bind_any; intros ? ].

(** X7: the keys a tool's schema marks as required are enforced by its
    handler: an invocation of an advertised tool without one of them is
    answered with a plain error text, never with a result. *)
Theorem required_keys_are_enforced
  (env : Env) (github : Config) (t : Tool) (k : string) (arguments : dict)
  (st : State) :
  In t handle_list_tools -> In k (required_keys t) ->
  lookup k arguments = None ->
  exists s,
    fst (handle_call_tool env github (tool_name t) arguments st)
    = [text_content (Plain s)].
Proof.
  intros Ht Hk Hmiss. apply plain_reply_of_fails.
  set (o := owner_of github arguments). set (r := repo_of github arguments).
  unfold handle_list_tools in Ht. simpl in Ht.
  repeat (destruct Ht as [<- | Ht]; [simpl in Hk|]); try contradiction;
    repeat (destruct Hk as [<- | Hk]; [|]); try contradiction;
    cbn [tool_name]; unfold dispatch; cbn [String.eqb Ascii.eqb Bool.eqb];
    unfold data; apply fails_bind.
  - unfold create_issue, dget. rewrite Hmiss. simpl. apply fails_raise.
  - unfold update_issue. raises_on_missing Hmiss.
  - unfold get_issue. raises_on_missing Hmiss.
  - unfold create_pull_request. raises_on_missing Hmiss.
  - unfold create_pull_request.
    apply fails_bind_any; intros ?. apply fails_bind_any; intros ?.
    apply fails_bind_any; intros ?. raises_on_missing Hmiss.
  - unfold get_pull_request. raises_on_missing Hmiss.
  - unfold get_file_content. raises_on_missing Hmiss.
  - unfold search_code. raises_on_missing Hmiss.
  - unfold add_issue_comment. raises_on_missing Hmiss.
  - unfold add_issue_comment.
    apply fails_bind_any; intros ?. raises_on_missing Hmiss.
Qed.

Lemma required_keys_are_enforced_witness :
  exists s,
    fst (handle_call_tool (env_const (answer 200 (JDict []))) pat_config
           (tool_name (tool_at 6)) [("title", JStr "Fix")] st0)
    = [text_content (Plain s)].
Proof.
  apply (required_keys_are_enforced (env_const (answer 200 (JDict [])))
           pat_config (tool_at 6) "head" [("title", JStr "Fix")] st0).
  - unfold tool_at, handle_list_tools. simpl. auto 20.
  - simpl. auto.
  - reflexivity.
Defined.

(** X8: the names [handle_list_tools] advertises are exactly the names
    [handle_call_tool] accepts. *)
Theorem tools_advertised_iff_routed (name : string) :
  In name valid_tools
  <-> exists t, In t handle_list_tools /\ tool_name t = name.
Proof.
  change valid_tools with (map tool_name handle_list_tools).
  rewrite in_map_iff. split; intros (t & H1 & H2); exists t; auto.
Qed.

(** X9: [create_issue] with a title that is missing, null or empty is
    refused with [Issue title is required] before anything is sent. *)
Theorem create_issue_requires_title
  (env : Env) (github : Config) (arguments : dict) (st : State) :
  ready github arguments = true ->
  truthy (dget arguments "title" JNull) = false ->
  handle_call_tool env github "create_issue" arguments st
  = ([text_content
        (Plain "Error executing tool 'create_issue': Issue title is required")],
     st).
Proof.
  intros Hready Ht.
  rewrite handle_call_tool_ready by (simpl; auto 20 || assumption).
  change (dispatch env github "create_issue" (owner_of github arguments)
            (repo_of github arguments) arguments)
    with (data (create_issue env github (owner_of github arguments)
                  (repo_of github arguments) arguments)).
  unfold data, create_issue. rewrite Ht. reflexivity.
Qed.

Lemma create_issue_requires_title_witness :
  handle_call_tool token_env app_config "create_issue"
    [("title", JStr ""); ("body", JStr "text")] st0
  = ([text_content
        (Plain "Error executing tool 'create_issue': Issue title is required")],
     st0).
Proof.
  apply create_issue_requires_title; reflexivity.
Defined.

(** X10: for the six tools that start by reading a required argument, a
    call without it is answered with the [KeyError] text naming the key,
    and nothing is sent. *)
Theorem missing_argument_before_network
  (env : Env) (github : Config) (name k : string) (arguments : dict)
  (st : State) :
  In (name, k) first_argument ->
  ready github arguments = true ->
  lookup k arguments = None ->
  handle_call_tool env github name arguments st
  = ([text_content
        (Plain ("Error executing tool '" ++ name ++ "': '" ++ k ++ "'"))],
     st).
Proof.
  intros Hin Hready Hmiss.
  assert (Hv : In name valid_tools).
  { unfold first_argument in Hin. simpl in Hin. simpl.
    repeat (destruct Hin as [Hin | Hin];
            [injection Hin as <- <-; auto 20|]).
    contradiction. }
  rewrite handle_call_tool_ready by assumption.
  unfold first_argument in Hin. simpl in Hin.
  repeat (destruct Hin as [Hin | Hin];
          [injection Hin as <- <-;
           unfold dispatch; cbn [String.eqb Ascii.eqb Bool.eqb]; unfold data
          |]);
    try contradiction.
  - unfold update_issue, bind, lift, dgetitem. now rewrite Hmiss.
  - unfold get_issue, bind, lift, dgetitem. now rewrite Hmiss.
  - unfold get_pull_request, bind, lift, dgetitem. now rewrite Hmiss.
  - unfold get_file_content, bind, lift, dgetitem. now rewrite Hmiss.
  - unfold search_code, bind, lift, dgetitem. now rewrite Hmiss.
  - unfold add_issue_comment, bind, lift, dgetitem. now rewrite Hmiss.
Qed.

Lemma missing_argument_before_network_witness :
  handle_call_tool token_env app_config "get_issue" [] st0
  = ([text_content
        (Plain ("Error executing tool '" ++ "get_issue" ++ "': '"
                ++ "issue_number" ++ "'"))],
     st0).
Proof.
  apply missing_argument_before_network;
    [simpl; auto | reflexivity | reflexivity].
Defined.

(** ** Status codes *)











(** ** What is sent *)

(** The state after a request whose answer is only projected. *)
Lemma outbound_is_call
  (github : Config) (method endpoint : string) (kwargs : Kwargs)
  (headers : list (string * string)) :
  is_call (outbound github method endpoint kwargs headers)
    method (api_base github ++ endpoint) (kw_params kwargs) (kw_json kwargs).
Proof. unfold is_call. repeat split; reflexivity. Qed.

Lemma sent_after_request {A}
  (env : Env) (github : Config) (method endpoint : string) (kwargs : Kwargs)
  (f : Response -> result A) (st : State) :
  kw_headers kwargs = None ->
  snd (bind (request env github method endpoint kwargs)
            (fun response => lift (f response)) st)
  = {| now := now (snd (_get_headers env github st));
       sent := (sent (snd (_get_headers env github st))
                ++ [outbound github method endpoint kwargs
                      (fst (_get_headers env github st))])%list |}.
Proof.
  intros H. unfold bind. rewrite request_sends by assumption. cbv zeta.
  destruct (transport _); reflexivity.
Qed.

Lemma lookup_dict_set_same (k : string) (v : json) (d : dict) :
  lookup k (dict_set k v d) = Some v.
Proof.
  induction d as [|[k' v'] d IH]; simpl.
  - now rewrite String.eqb_refl.
  - destruct (k =? k')%string eqn:E; simpl; rewrite ?String.eqb_refl, ?E;
      auto.
Qed.

Lemma lookup_dict_set_other (k k' : string) (v : json) (d : dict) :
  (k =? k')%string = false ->
  lookup k (dict_set k' v d) = lookup k d.
Proof.
  intros H. induction d as [|[k2 v2] d IH]; simpl.
  - now rewrite H.
  - destruct (k' =? k2)%string eqn:E; simpl.
    + apply String.eqb_eq in E. subst k2. now rewrite H.
    + now rewrite IH.
Qed.

Lemma lookup_copy_other (params : dict) (k k' : string) (d : dict) :
  (k =? k')%string = false ->
  lookup k (copy_if_truthy params k' d) = lookup k d.
Proof.
  intros H. unfold copy_if_truthy.
  destruct (truthy _); [now apply lookup_dict_set_other | reflexivity].
Qed.

Lemma min_100_int (n : Z) : min_100 (JInt n) = Ok (JInt (Z.min n 100)).
Proof.
  unfold min_100. destruct (100 <? n)%Z eqn:E.
  - apply Z.ltb_lt in E. now rewrite Z.min_r by lia.
  - apply Z.ltb_ge in E. now rewrite Z.min_l by lia.
Qed.

(** X14: each of the three listing tools sends, after the requests
    that obtain the headers, one GET to its endpoint of the repository,
    with no JSON body and with query parameters whose [per_page] is
    [min(per_page, 100)], with 30 when [per_page] is absent: the value
    is bounded above only, and an integer below 1 is forwarded as it
    is. *)
Theorem per_page_is_bounded_above_only
  (env : Env) (github : Config) (owner repo : json) (params : dict)
  (st : State) (n : Z) :
  dget params "per_page" (JInt 30) = JInt n ->
  let forwards (handler : M json) (endpoint : string) :=
    exists q rq,
      sent (snd (handler st))
      = (sent (snd (_get_headers env github st)) ++ [rq])%list
      /\ rq = outbound github "GET" (repo_path owner repo ++ endpoint)
                (with_params q) (fst (_get_headers env github st))
      /\ is_call rq "GET"
           (api_base github ++ repo_path owner repo ++ endpoint)
           (Some q) None
      /\ rq_headers rq = fst (_get_headers env github st)
      /\ lookup "per_page" q = Some (JInt (Z.min n 100)) in
  forwards (list_issues env github owner repo params) "/issues"
  /\ forwards (list_branches env github owner repo params) "/branches"
  /\ forwards (get_commits env github owner repo params) "/commits".
Proof.
  intros Hpp forwards. unfold forwards. split; [|split].
  - unfold list_issues, list_issues_query. rewrite Hpp, min_100_int.
    cbn [rbind]. unfold bind at 1, lift at 1.
    eexists. eexists. rewrite sent_after_request by reflexivity.
    split; [reflexivity|]. split; [reflexivity|].
    split; [apply outbound_is_call|]. split; [reflexivity|].
    now rewrite lookup_copy_other.
  - unfold list_branches. rewrite Hpp, min_100_int.
    unfold bind at 1, lift at 1.
    eexists. eexists. rewrite sent_after_request by reflexivity.
    split; [reflexivity|]. split; [reflexivity|].
    split; [apply outbound_is_call|]. split; [reflexivity|].
    destruct (dget params "protected" JNull); try reflexivity;
      now rewrite lookup_dict_set_other.
  - unfold get_commits. rewrite Hpp, min_100_int.
    unfold bind at 1, lift at 1.
    eexists. eexists. rewrite sent_after_request by reflexivity.
    split; [reflexivity|]. split; [reflexivity|].
    split; [apply outbound_is_call|]. split; [reflexivity|].
    cbn [fold_left]. now rewrite !lookup_copy_other.
Qed.

Lemma per_page_is_bounded_above_only_witness :
  exists q rq,
    sent (snd (get_commits (env_const (answer 200 (JList []))) pat_config
                 (JStr "o") (JStr "r") [("per_page", JInt 0)] st0))
    = (sent (snd (_get_headers (env_const (answer 200 (JList [])))
                    pat_config st0)) ++ [rq])%list
    /\ rq = outbound pat_config "GET"
              (repo_path (JStr "o") (JStr "r") ++ "/commits")
              (with_params q)
              (fst (_get_headers (env_const (answer 200 (JList [])))
                      pat_config st0))
    /\ is_call rq "GET"
         (api_base pat_config ++ repo_path (JStr "o") (JStr "r")
          ++ "/commits")
         (Some q) None
    /\ rq_headers rq
       = fst (_get_headers (env_const (answer 200 (JList [])))
                pat_config st0)
    /\ lookup "per_page" q = Some (JInt (Z.min 0 100)).
Proof.
  exact (proj2 (proj2 (per_page_is_bounded_above_only
                         (env_const (answer 200 (JList []))) pat_config
                         (JStr "o") (JStr "r") [("per_page", JInt 0)] st0 0
                         eq_refl))).
Defined.

(** X15: [create_pull_request] first reads the repository and then
    posts the pull request; the posted [base] is the caller's [base]
    when given, else the repository's default branch when the read
    answered 200, else [main]. *)
Theorem create_pull_request_base
  (env : Env) (github : Config) (owner repo : json) (params : dict)
  (st : State) (r1 : Response) (title head : json) :
  (forall hist rq, rq_method rq = "GET" -> respond env hist rq = Responded r1) ->
  (status_code r1 = 200%Z -> exists info, body r1 = Some (JDict info)) ->
  lookup "title" params = Some title -> lookup "head" params = Some head ->
  exists prefix h0 rq data,
    sent (snd (create_pull_request env github owner repo params st))
    = (prefix ++ [rq])%list
    /\ In (outbound github "GET" (repo_path owner repo) no_kwargs h0) prefix
    /\ rq_method rq = "POST"
    /\ rq_url rq = api_base github ++ repo_path owner repo ++ "/pulls"
    /\ rq_json rq = Some (JDict data)
    /\ lookup "title" data = Some title
    /\ lookup "head" data = Some head
    /\ lookup "base" data
       = Some (dget params "base" (default_branch_of r1)).
Proof.
  intros Hget Hbody Ht Hh.
  unfold create_pull_request.
  unfold bind at 1. rewrite request_sends by reflexivity. cbv zeta.
  rewrite Hget by reflexivity. unfold transport.
  set (hs := _get_headers env github st).
  set (get := outbound github "GET" (repo_path owner repo) no_kwargs (fst hs)).
  set (st2 := {| now := now (snd hs); sent := (sent (snd hs) ++ [get])%list |}).
  assert (Hdef : (if (status_code r1 =? 200)%Z
                  then (info <- json_of r1 ;;
                        get_attr info "default_branch" (JStr "main"))%py
                  else Ok (JStr "main"))
                 = Ok (default_branch_of r1)).
  { unfold default_branch_of.
    destruct (status_code r1 =? 200)%Z eqn:E; [|reflexivity].
    apply Z.eqb_eq in E. destruct (Hbody E) as [info Hi].
    unfold json_of. now rewrite Hi. }
  unfold bind at 1, lift at 1. rewrite Hdef.
  unfold bind at 1, lift at 1, dgetitem. rewrite Ht.
  unfold bind at 1, lift at 1. rewrite Hh.
  rewrite sent_after_request by reflexivity.
  set (data := copy_if_truthy params "draft" _).
  exists (sent (snd (_get_headers env github st2))), (fst hs).
  eexists. exists data.
  split; [reflexivity|].
  split.
  { destruct (_get_headers_sent env github st2) as [_ [E | [a E]]];
      rewrite E; unfold st2; cbn [sent]; rewrite ?in_app_iff; simpl; auto. }
  do 3 (split; [reflexivity|]).
  unfold data. rewrite !lookup_copy_other by reflexivity.
  repeat split; reflexivity.
Qed.

Lemma create_pull_request_base_witness :
  exists prefix h0 rq data,
    sent (snd (create_pull_request
                 (env_const (answer 200 (JDict [("default_branch",
                                                 JStr "trunk")])))
                 pat_config (JStr "o") (JStr "r")
                 [("title", JStr "Fix"); ("head", JStr "fix")] st0))
    = (prefix ++ [rq])%list
    /\ In (outbound pat_config "GET" (repo_path (JStr "o") (JStr "r"))
             no_kwargs h0) prefix
    /\ rq_method rq = "POST"
    /\ rq_url rq = api_base pat_config ++ repo_path (JStr "o") (JStr "r")
                   ++ "/pulls"
    /\ rq_json rq = Some (JDict data)
    /\ lookup "title" data = Some (JStr "Fix")
    /\ lookup "head" data = Some (JStr "fix")
    /\ lookup "base" data
       = Some (dget [("title", JStr "Fix"); ("head", JStr "fix")] "base"
                 (default_branch_of
                    (answer 200 (JDict [("default_branch", JStr "trunk")])))).
Proof.
  apply (create_pull_request_base
           (env_const (answer 200 (JDict [("default_branch", JStr "trunk")])))
           pat_config (JStr "o") (JStr "r")
           [("title", JStr "Fix"); ("head", JStr "fix")] st0
           (answer 200 (JDict [("default_branch", JStr "trunk")])));
    try reflexivity.
  intros _. eexists. reflexivity.
Defined.

(** ** Bodies and contents *)

Lemma length_take (n : nat) (s : string) : (String.length (take n s) <= n)%nat.
Proof.
  revert s; induction n as [|n IH]; intros [|c s]; simpl; try lia.
  specialize (IH s). lia.
Qed.

Lemma length_append (a b : string) :
  String.length (a ++ b) = (String.length a + String.length b)%nat.
Proof. induction a as [|c a IH]; simpl; [reflexivity | now rewrite IH]. Qed.

(** X16: the body field of a listed issue or pull request.  A body that
    is absent becomes the empty string, a null body stays null, a string
    of at most 200 characters is returned whole; and whatever the
    string, the field never exceeds 203 characters. *)
Theorem short_body_cases (d : dict) :
  match lookup "body" d with
  | None => short_body (JDict d) = Ok (JStr "")
  | Some JNull => short_body (JDict d) = Ok JNull
  | Some (JStr s) =>
      exists s',
        short_body (JDict d) = Ok (JStr s')
        /\ (String.length s' <= 203)%nat
        /\ ((String.length s <= 200)%nat -> s' = s)
  | Some _ => True
  end.
Proof.
  unfold short_body, get_attr, getitem, dgetitem, dget.
  destruct (lookup "body" d) as [[| | |s| |]|]; simpl; auto.
  destruct s as [|c s]; simpl.
  - exists "". repeat split; simpl; lia.
  - destruct (200 <? S (String.length s))%nat eqn:E.
    + exists (take 200 (String c s) ++ "..."). split; [reflexivity|]. split.
      * rewrite length_append.
        pose proof (length_take 200 (String c s)). simpl String.length in *.
        lia.
      * intros H. apply Nat.ltb_lt in E. lia.
    + exists (String c s). split; [reflexivity|].
      apply Nat.ltb_ge in E. split; [simpl; lia | reflexivity].
Qed.








(** ** Search, languages, updates *)

Lemma add_filter_text (params : dict) (k query : string) :
  add_filter params k query = query ++ filter_text params k.
Proof.
  unfold add_filter, filter_text.
  destruct (truthy _); [reflexivity | now rewrite append_empty_r].
Qed.

(** X19: [search_code] sends, after the requests that obtain the
    headers, one GET to [/search/code] with no JSON body, whose only
    query parameter [q] is the caller's query followed by
    [repo:<owner>/<repo>] and then the filters given: every search is
    confined to the repository of the invocation. *)
Theorem search_is_scoped
  (env : Env) (github : Config) (owner repo : json) (params : dict)
  (st : State) (q : json) :
  lookup "query" params = Some q ->
  exists rq,
    sent (snd (search_code env github owner repo params st))
    = (sent (snd (_get_headers env github st)) ++ [rq])%list
    /\ rq = outbound github "GET" "/search/code"
              (with_params
                 [("q", JStr (py_str q ++ " repo:" ++ py_str owner ++ "/"
                              ++ py_str repo
                              ++ filter_text params "filename"
                              ++ filter_text params "extension"
                              ++ filter_text params "path"))])
              (fst (_get_headers env github st))
    /\ is_call rq "GET" (api_base github ++ "/search/code")
         (Some [("q", JStr (py_str q ++ " repo:" ++ py_str owner ++ "/"
                            ++ py_str repo
                            ++ filter_text params "filename"
                            ++ filter_text params "extension"
                            ++ filter_text params "path"))])
         None
    /\ rq_headers rq = fst (_get_headers env github st).
Proof.
  intros Hq. unfold search_code, bind at 1, lift at 1, dgetitem.
  rewrite Hq. rewrite sent_after_request by reflexivity.
  rewrite !add_filter_text, !append_assoc.
  eexists. split; [reflexivity|]. split; [reflexivity|].
  split; [apply outbound_is_call | reflexivity].
Qed.

Lemma search_is_scoped_witness :
  exists rq,
    sent (snd (search_code (env_const (answer 200 (JDict []))) pat_config
                 (JStr "o") (JStr "r")
                 [("query", JStr "main"); ("extension", JStr "py")] st0))
    = (sent (snd (_get_headers (env_const (answer 200 (JDict [])))
                    pat_config st0)) ++ [rq])%list
    /\ rq = outbound pat_config "GET" "/search/code"
              (with_params
                 [("q", JStr (py_str (JStr "main") ++ " repo:"
                              ++ py_str (JStr "o") ++ "/"
                              ++ py_str (JStr "r")
                              ++ filter_text [("query", JStr "main");
                                              ("extension", JStr "py")]
                                   "filename"
                              ++ filter_text [("query", JStr "main");
                                              ("extension", JStr "py")]
                                   "extension"
                              ++ filter_text [("query", JStr "main");
                                              ("extension", JStr "py")]
                                   "path"))])
              (fst (_get_headers (env_const (answer 200 (JDict [])))
                      pat_config st0))
    /\ is_call rq "GET" (api_base pat_config ++ "/search/code")
         (Some [("q", JStr (py_str (JStr "main") ++ " repo:"
                            ++ py_str (JStr "o") ++ "/"
                            ++ py_str (JStr "r")
                            ++ filter_text [("query", JStr "main");
                                            ("extension", JStr "py")]
                                 "filename"
                            ++ filter_text [("query", JStr "main");
                                            ("extension", JStr "py")]
                                 "extension"
                            ++ filter_text [("query", JStr "main");
                                            ("extension", JStr "py")]
                                 "path"))])
         None
    /\ rq_headers rq
       = fst (_get_headers (env_const (answer 200 (JDict []))) pat_config
                st0).
Proof.
  apply (search_is_scoped (env_const (answer 200 (JDict []))) pat_config
           (JStr "o") (JStr "r")
           [("query", JStr "main"); ("extension", JStr "py")] st0
           (JStr "main")).
  reflexivity.
Defined.





(** X21: [update_issue] sends, after the requests that obtain the
    headers, one PATCH to the issue's URL with no query parameters,
    whose JSON body holds exactly the fields given with a non-empty
    value, among [title], [body], [state], [labels] and [assignees],
    each with the caller's value; a field given empty is left out of
    the request, so the call cannot clear it. *)
Theorem update_issue_patch
  (env : Env) (github : Config) (owner repo : json) (params : dict)
  (st : State) (n : json) :
  lookup "issue_number" params = Some n ->
  exists data rq,
    sent (snd (update_issue env github owner repo params st))
    = (sent (snd (_get_headers env github st)) ++ [rq])%list
    /\ rq = outbound github "PATCH"
              (repo_path owner repo ++ "/issues/" ++ py_str n)
              (with_json (JDict data))
              (fst (_get_headers env github st))
    /\ is_call rq "PATCH"
         (api_base github ++ repo_path owner repo ++ "/issues/"
          ++ py_str n)
         None (Some (JDict data))
    /\ rq_headers rq = fst (_get_headers env github st)
    /\ keys data
       = filter (fun k => truthy (dget params k JNull))
                ["title"; "body"; "state"; "labels"; "assignees"]
    /\ forall k v, lookup k data = Some v -> lookup k params = Some v.
Proof.
  intros Hn. unfold update_issue, bind at 1, lift at 1, dgetitem.
  rewrite Hn. rewrite sent_after_request by reflexivity.
  eexists. eexists. split; [reflexivity|]. split; [reflexivity|].
  split; [apply outbound_is_call|]. split; [reflexivity|].
  unfold copy_if_truthy. cbn [filter].
  destruct (truthy (dget params "title" JNull)) eqn:E1;
    destruct (truthy (dget params "body" JNull)) eqn:E2;
    destruct (truthy (dget params "state" JNull)) eqn:E3;
    destruct (truthy (dget params "labels" JNull)) eqn:E4;
    destruct (truthy (dget params "assignees" JNull)) eqn:E5;
    (split; [reflexivity|]);
    intros k v; cbn [dict_set lookup String.eqb Ascii.eqb Bool.eqb];
    repeat match goal with
           | |- context [(k =? ?key)%string] =>
               destruct (String.eqb_spec k key) as [-> | _]
           end;
    try discriminate;
    intros H; injection H as <-;
    match goal with
    | E : truthy (dget params ?key JNull) = true |- lookup ?key params = _ =>
        destruct (truthy_dget_lookup _ _ E) as (w & Hw & Hd);
        rewrite Hd; exact Hw
    end.
Qed.

Lemma update_issue_patch_witness :
  exists data rq,
    sent (snd (update_issue (env_const (answer 200 (JDict []))) pat_config
                 (JStr "o") (JStr "r")
                 [("issue_number", JInt 7); ("title", JStr "");
                  ("state", JStr "closed")] st0))
    = (sent (snd (_get_headers (env_const (answer 200 (JDict [])))
                    pat_config st0)) ++ [rq])%list
    /\ rq = outbound pat_config "PATCH"
              (repo_path (JStr "o") (JStr "r") ++ "/issues/"
               ++ py_str (JInt 7))
              (with_json (JDict data))
              (fst (_get_headers (env_const (answer 200 (JDict [])))
                      pat_config st0))
    /\ is_call rq "PATCH"
         (api_base pat_config ++ repo_path (JStr "o") (JStr "r")
          ++ "/issues/" ++ py_str (JInt 7))
         None (Some (JDict data))
    /\ rq_headers rq
       = fst (_get_headers (env_const (answer 200 (JDict [])))
                pat_config st0)
    /\ keys data
       = filter (fun k => truthy (dget [("issue_number", JInt 7);
                                        ("title", JStr "");
                                        ("state", JStr "closed")] k JNull))
                ["title"; "body"; "state"; "labels"; "assignees"]
    /\ forall k v, lookup k data = Some v ->
                   lookup k [("issue_number", JInt 7); ("title", JStr "");
                             ("state", JStr "closed")] = Some v.
Proof.
  apply (update_issue_patch (env_const (answer 200 (JDict []))) pat_config
           (JStr "o") (JStr "r")
           [("issue_number", JInt 7); ("title", JStr "");
            ("state", JStr "closed")] st0 (JInt 7)).
  reflexivity.
Defined.

(** ** Start-up *)

(** X22: what the environment variables set is never replaced at
    start-up.  With a non-empty [GITHUB_OWNER], [GITHUB_REPO] and
    [GITHUB_PAT], the client holds exactly these values, whatever the
    git remote and the PAT file would give. *)
Theorem configured_values_win
  (p : Process) (git : git_run) (files : string -> option string) :
  truthy_opt (getenv p "GITHUB_OWNER") = true ->
  truthy_opt (getenv p "GITHUB_REPO") = true ->
  truthy_opt (getenv p "GITHUB_PAT") = true ->
  GitHubClient_init (with_surroundings p git files) = GitHubClient_init p
  /\ repo_owner (GitHubClient_init p) = getenv p "GITHUB_OWNER"
  /\ repo_name (GitHubClient_init p) = getenv p "GITHUB_REPO"
  /\ pat (GitHubClient_init p) = getenv p "GITHUB_PAT".
Proof.
  intros Ho Hr Hp. unfold GitHubClient_init, with_surroundings.
  cbn [getenv git_remote read_file]. rewrite Ho, Hr, Hp. simpl.
  repeat split.
Qed.

Lemma configured_values_win_witness :
  GitHubClient_init
    (with_surroundings
       {| getenv := env_vars; git_remote := CalledProcessError;
          read_file := fun _ => None |}
       (Completed "https://github.com/other/project.git")
       (fun _ => Some "ghp_from_file"))
  = GitHubClient_init
      {| getenv := env_vars; git_remote := CalledProcessError;
         read_file := fun _ => None |}
  /\ repo_owner (GitHubClient_init
                   {| getenv := env_vars; git_remote := CalledProcessError;
                      read_file := fun _ => None |})
     = env_vars "GITHUB_OWNER"
  /\ repo_name (GitHubClient_init
                  {| getenv := env_vars; git_remote := CalledProcessError;
                     read_file := fun _ => None |})
     = env_vars "GITHUB_REPO"
  /\ pat (GitHubClient_init
            {| getenv := env_vars; git_remote := CalledProcessError;
               read_file := fun _ => None |})
     = env_vars "GITHUB_PAT".
Proof.
  apply configured_values_win; reflexivity.
Defined.

Lemma rstrip_app (a b : string) :
  rstrip b <> "" -> rstrip (a ++ b) = a ++ rstrip b.
Proof.
  intros Hb. induction a as [|c a IH]; simpl; [reflexivity|].
  rewrite IH. destruct (a ++ rstrip b) eqn:E; [|reflexivity].
  exfalso. destruct a; simpl in E; [contradiction | discriminate].
Qed.

(** X23: the remote as git prints it, with its trailing newline, is
    resolved: for names without ['/'], [':'] and ['.git'], each of the
    three forms ending in [.git] gives [(owner, repo)], and when
    neither [GITHUB_OWNER] nor [GITHUB_REPO] is set the client starts
    with that owner and repository. *)
Theorem detect_from_git_output
  (p : Process) (prefix owner repo : string) :
  In prefix url_prefixes ->
  plain_segment owner = true -> plain_segment repo = true ->
  git_remote p
  = Completed (prefix ++ owner ++ "/" ++ repo ++ ".git" ++ newline) ->
  getenv p "GITHUB_OWNER" = None -> getenv p "GITHUB_REPO" = None ->
  _detect_git_repo (git_remote p) = Some (owner, repo)
  /\ repo_owner (GitHubClient_init p) = Some owner
  /\ repo_name (GitHubClient_init p) = Some repo.
Proof.
  intros Hp Ho Hr Hgit Heo Her.
  assert (Hd : _detect_git_repo (git_remote p) = Some (owner, repo)).
  { rewrite Hgit. unfold _detect_git_repo, strip.
    assert (Hl : lstrip (prefix ++ owner ++ "/" ++ repo ++ ".git" ++ newline)
                 = prefix ++ owner ++ "/" ++ repo ++ ".git" ++ newline).
    { destruct Hp as [<- | [<- | [<- | []]]]; reflexivity. }
    rewrite Hl.
    replace (prefix ++ owner ++ "/" ++ repo ++ ".git" ++ newline)
      with ((prefix ++ owner ++ "/" ++ repo) ++ (".git" ++ newline))
      by now rewrite !append_assoc.
    rewrite rstrip_app by discriminate.
    change (rstrip (".git" ++ newline)) with ".git".
    rewrite !append_assoc.
    apply parse_form; auto. }
  split; [exact Hd|].
  unfold GitHubClient_init. rewrite Heo, Her, Hd. split; reflexivity.
Qed.

Lemma detect_from_git_output_witness :
  _detect_git_repo
    (git_remote {| getenv := fun _ => None;
                   git_remote := Completed ("git@github.com:" ++ "neovasky"
                                            ++ "/" ++ "mcp-feather-code"
                                            ++ ".git" ++ newline);
                   read_file := fun _ => None |})
  = Some ("neovasky", "mcp-feather-code").
Proof.
  apply (proj1 (detect_from_git_output
                  {| getenv := fun _ => None;
                     git_remote := Completed ("git@github.com:" ++ "neovasky"
                                              ++ "/" ++ "mcp-feather-code"
                                              ++ ".git" ++ newline);
                     read_file := fun _ => None |}
                  "git@github.com:" "neovasky" "mcp-feather-code"
                  (or_intror (or_introl eq_refl))
                  eq_refl eq_refl eq_refl eq_refl eq_refl)).
Defined.

(** ** Error texts and failing paths *)










(** ** An invariant of everything sent *)

Lemma keeps_lift {A} (github : Config) (r : result A) : keeps github (lift r).
Proof. intros st H. exact H. Qed.

Lemma keeps_raise {A} (github : Config) (e : exn) :
  keeps github (@raise A e).
Proof. intros st H. exact H. Qed.

Lemma keeps_bind {A B} (github : Config) (m : M A) (k : A -> M B) :
  keeps github m -> (forall a, keeps github (k a)) -> keeps github (bind m k).
Proof.
  intros Hm Hk st H. unfold bind. specialize (Hm st H).
  destruct (m st) as [[a|e] st']; [apply Hk; exact Hm | exact Hm].
Qed.

Lemma headers_shape_aux (env : Env) (github : Config) (st : State) :
  fst (_get_headers env github st) = default_headers
  \/ exists t,
      fst (_get_headers env github st)
      = List.app default_headers [("Authorization", "token " ++ t)].
Proof.
  unfold _get_headers.
  destruct (truthy_opt (pat github)); [right; eexists; reflexivity|].
  destruct (app_configured github); [|left; reflexivity].
  destruct (_get_app_token env github st) as [[token|e] st'];
    [right; eexists; reflexivity | left; reflexivity].
Qed.

Lemma _get_headers_keeps (env : Env) (github : Config) (st : State) :
  Forall (gateway_request github) (sent st) ->
  Forall (gateway_request github) (sent (snd (_get_headers env github st)))
  /\ header_get "Accept" (fst (_get_headers env github st)) = Some accept_v3.
Proof.
  intros H. split.
  - destruct (_get_headers_sent env github st) as [_ [E | [a E]]];
      rewrite E; [exact H|].
    apply Forall_app. split; [exact H|]. constructor; [|constructor].
    repeat split; [simpl; auto|]. apply startswith_app.
  - destruct (headers_shape_aux env github st) as [E | [t E]];
      rewrite E; reflexivity.
Qed.

Lemma request_keeps
  (env : Env) (github : Config) (method endpoint : string) (kwargs : Kwargs) :
  kw_timeout kwargs = None ->
  keeps github (request env github method endpoint kwargs).
Proof.
  intros Ht st H. unfold request, send.
  destruct (_get_headers_keeps env github st H) as [H1 H2].
  destruct (_get_headers env github st) as [h st1]. simpl in H1, H2.
  destruct (kw_headers kwargs); [exact H1|]. simpl.
  apply Forall_app. split; [exact H1|]. constructor; [|constructor].
  unfold gateway_request, outbound. cbn [rq_headers rq_timeout rq_url].
  rewrite Ht. repeat split; auto. apply startswith_app.
Qed.

Ltac keeps_step env :=
  first [ apply keeps_lift
        | apply keeps_raise
        | apply request_keeps; reflexivity
        | apply keeps_bind; [|intros ?] ].

(** X27: every request an invocation adds to the log, the token
    exchange included, carries [Accept: application/vnd.github.v3+json],
    has a timeout of 30 or 10 seconds, and goes to a URL under the
    configured API base. *)
Theorem requests_are_uniform
  (env : Env) (github : Config) (name : string) (arguments : dict)
  (st : State) :
  Forall (gateway_request github) (sent st) ->
  Forall (gateway_request github)
         (sent (snd (handle_call_tool env github name arguments st))).
Proof.
  intros H. unfold handle_call_tool.
  destruct (negb (existsb (String.eqb name) valid_tools)); [exact H|].
  destruct (negb (truthy _) || negb (truthy _)); [exact H|].
  destruct (negb (truthy_opt _) && negb _); [exact H|].
  set (o := dget arguments "owner" _). set (r := dget arguments "repo" _).
  assert (Hk : keeps github (dispatch env github name o r arguments)).
  { unfold dispatch, data.
    repeat match goal with
           | |- keeps _ (if ?c then _ else _) => destruct c
           end;
      try apply keeps_raise;
      try (apply keeps_bind; [|intros ?; intros st' H'; exact H']).
    - unfold get_repository_info. repeat keeps_step env.
    - unfold list_issues. repeat keeps_step env.
    - unfold create_issue.
      destruct (negb (truthy (dget arguments "title" JNull)));
        repeat keeps_step env.
    - unfold get_pull_requests. repeat keeps_step env.
    - unfold update_issue. repeat keeps_step env.
    - unfold get_issue. repeat keeps_step env.
    - unfold create_pull_request. repeat keeps_step env.
    - unfold get_pull_request. repeat keeps_step env.
    - unfold list_branches. repeat keeps_step env.
    - unfold get_commits. repeat keeps_step env.
    - unfold get_file_content. repeat keeps_step env.
    - unfold search_code. repeat keeps_step env.
    - unfold add_issue_comment. repeat keeps_step env.
    - unfold get_repository_languages. repeat keeps_step env.
    - intros st1 H1. unfold get_repository_topics.
      destruct (_get_headers_keeps env github st1 H1) as [H2 _].
      destruct (_get_headers env github st1) as [base st2]. simpl in H2.
      revert st2 H2. change (keeps github
        (bind (request env github "GET" (repo_path o r ++ "/topics")
                 (with_headers (header_set "Accept" topics_accept base)))
              (fun response =>
                 lift (expect_status 200 response ;;
                       topics_data <- json_of response ;;
                       build [("topics",
                               get_attr topics_data "names" (JList []));
                              ("count",
                               (names <- get_attr topics_data "names"
                                           (JList []) ;;
                                n <- py_len names ;;
                                Ok (JInt (Z.of_nat n))))])%py))).
      repeat keeps_step env. }
  specialize (Hk st H).
  destruct (dispatch env github name o r arguments st) as [[res|e] st'];
    exact Hk.
Qed.

Lemma requests_are_uniform_witness :
  Forall (gateway_request app_config)
         (sent (snd (handle_call_tool token_env app_config "list_branches"
                       [] st0))).
Proof.
  apply requests_are_uniform. constructor.
Defined.
